(** * Resource-group dispatcher and type-coercion helper of devtron

    A shallow embedding of

    - [pkg/variables/utils/type-utils.go] (StringifyValue, DestringifyValue,
      IsValidYAML, IsValidJSON, IsPrimitiveType, IsStringType), and
    - [api/restHandler/ResourceGroupRestHandler.go] (the group-type resolver,
      the five handlers and the two batch-authorization strategies),

    together with the parts of the Go standard library these functions call
    ([strconv], [strings], [encoding/json], [reflect]).  Go strings are byte
    sequences and are modelled by [string] (one [ascii] per byte); Go [int]
    is the 64-bit one and is modelled by [Z]; a Go [(value, error)] result is
    a pair whose second component is [None] for a nil error. *)

From Stdlib Require Import ZArith String Ascii List Lia Bool.
From Stdlib Require Import Floats.SpecFloat.
From stdpp Require Import base strings gmap.

Open Scope string_scope.
Open Scope Z_scope.

(** stdpp blocks [simpl] on string concatenation; the proofs below compute
    with it. *)
#[local] Arguments String.append !_ _ : simpl nomatch.

(** ** Bytes *)

Definition byte_of (c : ascii) : Z := Z.of_N (N_of_ascii c).
Arguments byte_of c%_char_scope.

(** The double-quote byte. *)
Definition dquote : ascii := "034"%char.

(** [c - d] on Go's [byte] type, with its wrap-around. *)
Definition byte_sub (c d : Z) : Z := (c - d) mod 256.

(** strconv's [lower]: [c | ('x' - 'X')]. *)
Definition lower (c : ascii) : Z := Z.lor (byte_of c) 32.

Definition isDigit (c : ascii) : bool :=
  (byte_of "0" <=? byte_of c) && (byte_of c <=? byte_of "9").

(** ** Dynamic values

    [reflect.Kind], in the order of the Go declaration. *)
Inductive Kind :=
| Invalid | Bool | Int | Int8 | Int16 | Int32 | Int64
| Uint | Uint8 | Uint16 | Uint32 | Uint64 | Uintptr
| Float32 | Float64 | Complex64 | Complex128
| Array | Chan | Func | Interface | Map | Pointer | Slice
| String_ | Struct | UnsafePointer.

Definition Kind_eqb (a b : Kind) : bool :=
  match a, b with
  | Invalid, Invalid | Bool, Bool | Int, Int | Int8, Int8 | Int16, Int16
  | Int32, Int32 | Int64, Int64 | Uint, Uint | Uint8, Uint8
  | Uint16, Uint16 | Uint32, Uint32 | Uint64, Uint64 | Uintptr, Uintptr
  | Float32, Float32 | Float64, Float64 | Complex64, Complex64
  | Complex128, Complex128 | Array, Array | Chan, Chan | Func, Func
  | Interface, Interface | Map, Map | Pointer, Pointer | Slice, Slice
  | String_, String_ | Struct, Struct | UnsafePointer, UnsafePointer => true
  | _, _ => false
  end.

(** A value of type [interface{}].  The dynamic types that the two files
    produce or inspect have a constructor of their own; [VOther k] stands for
    a value of any other dynamic type, of which only the kind [k] is
    observed.  [VNil] is the nil interface. *)
Inductive GoValue :=
| VNil
| VJsonNumber (tok : string)      (* json.Number *)
| VString (s : string)            (* string *)
| VBool (b : bool)                (* bool *)
| VInt (n : Z)                    (* int *)
| VFloat64 (f : spec_float)       (* float64 *)
| VOther (k : Kind).

(** ** Errors *)

Inductive NumErrKind := ErrSyntax | ErrRange.

Inductive error :=
| NumError (Func Num : string) (Err : NumErrKind)   (* *strconv.NumError *)
| Errorf (msg : string)                             (* fmt.Errorf, expanded *)
| Errorf_v (format : string) (operand : GoValue)    (* fmt.Errorf with a %v operand *)
| JsonSyntaxError (msg : string) (offset : Z)       (* *json.SyntaxError *)
| UnmarshalTypeError (value : string)               (* *json.UnmarshalTypeError *)
| ExternalError (msg : string).                     (* an error of a collaborator *)

Definition syntaxError (fn str : string) : error := NumError fn str ErrSyntax.
Definition rangeError (fn str : string) : error := NumError fn str ErrRange.

Definition isNil {A} (e : option A) : bool :=
  match e with None => true | Some _ => false end.

(** ** Package strconv *)

Module strconv.

Definition intSize : Z := 64.
Definition maxUint64 : Z := 2 ^ 64 - 1.

(** The digit loop of [ParseUint], for the one call made here,
    [ParseUint(s, 10, 64)]: [n] is the accumulator. *)
Fixpoint parseUintLoop (s : string) (n : Z) : Z * option NumErrKind :=
  match s with
  | EmptyString => (n, None)
  | String c s' =>
      let base := 10 in
      let cutoff := maxUint64 / 10 + 1 in
      let maxVal := 2 ^ 64 - 1 in
      let d :=
        if isDigit c then Some (byte_sub (byte_of c) (byte_of "0"))
        else if (byte_of "a" <=? lower c) && (lower c <=? byte_of "z")
             then Some ((byte_sub (lower c) (byte_of "a") + 10) mod 256)
        else None in
      match d with
      | None => (0, Some ErrSyntax)
      | Some d =>
          if base <=? d then (0, Some ErrSyntax)
          else if cutoff <=? n then (maxVal, Some ErrRange)
          else
            let n := n * base in
            let n1 := (n + d) mod 2 ^ 64 in
            if (n1 <? n) || (maxVal <? n1) then (maxVal, Some ErrRange)
            else parseUintLoop s' n1
      end
  end.

Definition ParseUint (s : string) : Z * option error :=
  match s with
  | EmptyString => (0, Some (syntaxError "ParseUint" s))
  | _ =>
      match parseUintLoop s 0 with
      | (n, None) => (n, None)
      | (n, Some k) => (n, Some (NumError "ParseUint" s k))
      end
  end.

(** [ParseInt(s, 10, 0)]. *)
Definition ParseInt (s : string) : Z * option error :=
  match s with
  | EmptyString => (0, Some (syntaxError "ParseInt" s))
  | String c0 rest =>
      let s0 := s in
      let '(neg, s) :=
        if Ascii.eqb c0 "+" then (false, rest)
        else if Ascii.eqb c0 "-" then (true, rest)
        else (false, s) in
      let '(un, err) := ParseUint s in
      match err with
      | Some (NumError _ _ ErrRange) | None =>
          let cutoff := 2 ^ (intSize - 1) in
          if negb neg && (cutoff <=? un) then
            (cutoff - 1, Some (rangeError "ParseInt" s0))
          else if neg && (cutoff <? un) then
            (- cutoff, Some (rangeError "ParseInt" s0))
          else (if neg then - un else un, None)
      | Some _ => (0, Some (syntaxError "ParseInt" s0))
      end
  end.

(** The digit loop of [Atoi]'s fast path; [None] is its syntax error. *)
Fixpoint atoiLoop (s : string) (n : Z) : option Z :=
  match s with
  | EmptyString => Some n
  | String c s' =>
      let ch := byte_sub (byte_of c) (byte_of "0") in
      if 9 <? ch then None else atoiLoop s' (n * 10 + ch)
  end.

Definition Atoi (s : string) : Z * option error :=
  let sLen := Z.of_nat (String.length s) in
  if (0 <? sLen) && (sLen <? 19) then
    let s0 := s in
    match s with
    | EmptyString => (0, Some (syntaxError "Atoi" s0))
    | String c0 rest =>
        let signed := Ascii.eqb c0 "-" || Ascii.eqb c0 "+" in
        let s := if signed then rest else s in
        if signed && (Z.of_nat (String.length s) <? 1) then
          (0, Some (syntaxError "Atoi" s0))
        else
          match atoiLoop s 0 with
          | None => (0, Some (syntaxError "Atoi" s0))
          | Some n => (if Ascii.eqb c0 "-" then - n else n, None)
          end
    end
  else
    match ParseInt s with
    | (i64, Some (NumError _ num k)) => (i64, Some (NumError "Atoi" num k))
    | r => r
    end.

Definition ParseBool (str : string) : bool * option error :=
  if String.eqb str "1" || String.eqb str "t" || String.eqb str "T" || String.eqb str "true"
     || String.eqb str "TRUE" || String.eqb str "True" then (true, None)
  else if String.eqb str "0" || String.eqb str "f" || String.eqb str "F" || String.eqb str "false"
     || String.eqb str "FALSE" || String.eqb str "False" then (false, None)
  else (false, Some (syntaxError "ParseBool" str)).

Definition FormatBool (b : bool) : string :=
  if b then "true" else "false".

(** *** ParseFloat(s, 64)

    [float64] values are IEEE 754 binary64 numbers, [spec_float].  Go's
    conversion (exact fast path, Eisel-Lemire, and the multi-precision
    [decimal] fallback) returns the number nearest to the decimal or
    hexadecimal literal, ties to even; the model rounds the exact value
    [num / den] the same way. *)

Definition float64_of_ratio (neg : bool) (num den : Z) : spec_float :=
  if num =? 0 then S754_zero neg
  else
    let e0 := Z.log2 num - Z.log2 den in
    let below :=
      if 0 <=? e0 then num <? den * 2 ^ e0 else num * 2 ^ (- e0) <? den in
    let e := if below then e0 - 1 else e0 in
    let q := Z.max (e - 52) (-1074) in
    let n := if 0 <=? q then num else num * 2 ^ (- q) in
    let d := if 0 <=? q then den * 2 ^ q else den in
    let m0 := n / d in
    let r := n mod d in
    let m :=
      if (d <? 2 * r) || ((d =? 2 * r) && Z.odd m0) then m0 + 1 else m0 in
    let '(m, q) := if m =? 2 ^ 53 then (2 ^ 52, q + 1) else (m, q) in
    if m =? 0 then S754_zero neg
    else if 1024 <? q + 53 then S754_infinity neg
    else S754_finite neg (Z.to_pos m) q.

Definition isInf (f : spec_float) : bool :=
  match f with S754_infinity _ => true | _ => false end.

Definition toLowerAZ (c : ascii) : Z :=
  if (byte_of "A" <=? byte_of c) && (byte_of c <=? byte_of "Z")
  then byte_of c + (byte_of "a" - byte_of "A") else byte_of c.

Fixpoint commonPrefixLenIgnoreCase (s prefix : string) : Z :=
  match s, prefix with
  | String c s', String p prefix' =>
      if toLowerAZ c =? byte_of p
      then 1 + commonPrefixLenIgnoreCase s' prefix' else 0
  | _, _ => 0
  end.

(** [special]: the value and the number of bytes consumed. *)
Definition special (s : string) : option (spec_float * Z) :=
  let inf (neg : bool) (nsign : Z) (s : string) :=
    let n := commonPrefixLenIgnoreCase s "infinity" in
    let n := if (3 <? n) && (n <? 8) then 3 else n in
    if (n =? 3) || (n =? 8) then Some (S754_infinity neg, nsign + n)
    else None in
  match s with
  | EmptyString => None
  | String c0 rest =>
      if Ascii.eqb c0 "+" then inf false 1 rest
      else if Ascii.eqb c0 "-" then inf true 1 rest
      else if Ascii.eqb c0 "i" || Ascii.eqb c0 "I" then inf false 0 s
      else if Ascii.eqb c0 "n" || Ascii.eqb c0 "N" then
        if commonPrefixLenIgnoreCase s "nan" =? 3 then Some (S754_nan, 3)
        else None
      else None
  end.

(** [underscoreOK]: [saw] is the last character class seen. *)
Fixpoint underscoreLoop (hex : bool) (s : string) (saw : ascii) : bool :=
  match s with
  | EmptyString => negb (Ascii.eqb saw "_")
  | String c s' =>
      if isDigit c
         || (hex && (byte_of "a" <=? lower c) && (lower c <=? byte_of "f"))
      then underscoreLoop hex s' "0"
      else if Ascii.eqb c "_" then
        if negb (Ascii.eqb saw "0") then false
        else underscoreLoop hex s' "_"
      else if Ascii.eqb saw "_" then false
      else underscoreLoop hex s' "!"
  end.

Definition underscoreOK (s : string) : bool :=
  let s :=
    match s with
    | String c rest =>
        if Ascii.eqb c "-" || Ascii.eqb c "+" then rest else s
    | _ => s
    end in
  match s with
  | String c0 (String c1 rest) =>
      if Ascii.eqb c0 "0"
         && ((lower c1 =? byte_of "b") || (lower c1 =? byte_of "o")
             || (lower c1 =? byte_of "x"))
      then underscoreLoop (lower c1 =? byte_of "x") rest "0"
      else underscoreLoop false s "^"
  | _ => underscoreLoop false s "^"
  end.

(** The local variables of [readFloat].  [digits] is not one of them: it is
    the exact value of all [nd] significant digits, which the [decimal]
    fallback re-reads from the text ([mantissa] keeps the first
    [maxMantDigits] only and [trunc] records that more were dropped). *)
Record readState := mkReadState {
  underscores : bool;
  sawdot : bool;
  sawdigits : bool;
  nd : Z;
  ndMant : Z;
  dp : Z;
  mantissa : Z;
  trunc : bool;
  digits : Z;
  idx : Z
}.

Definition advance (st : readState) : readState :=
  mkReadState st.(underscores) st.(sawdot) st.(sawdigits) st.(nd) st.(ndMant)
    st.(dp) st.(mantissa) st.(trunc) st.(digits) (st.(idx) + 1).

Definition addDigit (base maxMantDigits d : Z) (zero : bool) (st : readState)
  : readState :=
  let keep := st.(ndMant) <? maxMantDigits in
  mkReadState st.(underscores) st.(sawdot) true (st.(nd) + 1)
    (if keep then st.(ndMant) + 1 else st.(ndMant))
    st.(dp)
    (if keep then st.(mantissa) * base + d else st.(mantissa))
    (if keep then st.(trunc) else if zero then st.(trunc) else true)
    (st.(digits) * base + d) (st.(idx) + 1).

(** The mantissa loop of [readFloat]; returns the state at the [break] and
    the text not yet read. *)
Fixpoint mantissaLoop (base maxMantDigits : Z) (s : string) (st : readState)
  : readState * string :=
  match s with
  | EmptyString => (st, s)
  | String c s' =>
      if Ascii.eqb c "_" then
        mantissaLoop base maxMantDigits s'
          (mkReadState true st.(sawdot) st.(sawdigits) st.(nd) st.(ndMant)
             st.(dp) st.(mantissa) st.(trunc) st.(digits) (st.(idx) + 1))
      else if Ascii.eqb c "." then
        if st.(sawdot) then (st, s)
        else
          mantissaLoop base maxMantDigits s'
            (mkReadState st.(underscores) true st.(sawdigits) st.(nd)
               st.(ndMant) st.(nd) st.(mantissa) st.(trunc) st.(digits)
               (st.(idx) + 1))
      else if isDigit c then
        if Ascii.eqb c "0" && (st.(nd) =? 0) then
          mantissaLoop base maxMantDigits s'
            (mkReadState st.(underscores) st.(sawdot) true st.(nd)
               st.(ndMant) (st.(dp) - 1) st.(mantissa) st.(trunc)
               st.(digits) (st.(idx) + 1))
        else
          mantissaLoop base maxMantDigits s'
            (addDigit base maxMantDigits (byte_of c - byte_of "0")
               (Ascii.eqb c "0") st)
      else if (base =? 16) && (byte_of "a" <=? lower c)
              && (lower c <=? byte_of "f") then
        mantissaLoop base maxMantDigits s'
          (addDigit 16 maxMantDigits (lower c - byte_of "a" + 10) false st)
      else (st, s)
  end.

(** The exponent digits: the value [e], saturating as the source does, the
    number of bytes read and whether an underscore was among them. *)
Fixpoint exponentLoop (s : string) (e n : Z) (us : bool)
  : Z * Z * bool * string :=
  match s with
  | EmptyString => (e, n, us, s)
  | String c s' =>
      if Ascii.eqb c "_" then exponentLoop s' e (n + 1) true
      else if isDigit c then
        exponentLoop s'
          (if e <? 10000 then e * 10 + byte_of c - byte_of "0" else e)
          (n + 1) us
      else (e, n, us, s)
  end.

Record readResult := mkReadResult {
  r_mantissa : Z;
  r_exp : Z;
  r_neg : bool;
  r_trunc : bool;
  r_hex : bool;
  r_n : Z;
  r_digits : Z;    (* with [r_nd] and [r_dp]: what decimal.set reads *)
  r_nd : Z;
  r_dp : Z
}.

(** [readFloat]; [None] is [ok = false]. *)
Definition readFloat (s : string) : option readResult :=
  match s with
  | EmptyString => None
  | String c0 rest0 =>
      let '(neg, i, r) :=
        if Ascii.eqb c0 "+" then (false, 1, rest0)
        else if Ascii.eqb c0 "-" then (true, 1, rest0)
        else (false, 0, s) in
      let '(hex, i, r) :=
        match r with
        | String d0 (String d1 (String d2 r2)) =>
            if Ascii.eqb d0 "0" && (lower d1 =? byte_of "x")
            then (true, i + 2, String d2 r2) else (false, i, r)
        | _ => (false, i, r)
        end in
      let base := if hex then 16 else 10 in
      let maxMantDigits := if hex then 16 else 19 in
      let expChar := if hex then byte_of "p" else byte_of "e" in
      let '(st, r) :=
        mantissaLoop base maxMantDigits r
          (mkReadState false false false 0 0 0 0 false 0 i) in
      if negb st.(sawdigits) then None
      else
        let dp := if st.(sawdot) then st.(dp) else st.(nd) in
        let dp := if hex then dp * 4 else dp in
        let ndMant := if hex then st.(ndMant) * 4 else st.(ndMant) in
        let finish (dp i : Z) (us : bool) :=
          let exp := if st.(mantissa) =? 0 then 0 else dp - ndMant in
          if us && negb (underscoreOK (substring 0 (Z.to_nat i) s)) then None
          else Some (mkReadResult st.(mantissa) exp neg st.(trunc) hex i
                       st.(digits) st.(nd) dp) in
        match r with
        | String ce r1 =>
            if lower ce =? expChar then
              match r1 with
              | EmptyString => None
              | String cs r2 =>
                  let '(esign, k, r3) :=
                    if Ascii.eqb cs "+" then (1, 1, r2)
                    else if Ascii.eqb cs "-" then (-1, 1, r2)
                    else (1, 0, r1) in
                  match r3 with
                  | String cd _ =>
                      if isDigit cd then
                        let '(e, n, us, _) := exponentLoop r3 0 0 false in
                        finish (dp + e * esign) (st.(idx) + 1 + k + n)
                          (st.(underscores) || us)
                      else None
                  | EmptyString => None
                  end
              end
            else if hex then None
            else finish dp st.(idx) st.(underscores)
        | EmptyString =>
            if hex then None else finish dp st.(idx) st.(underscores)
        end
  end.

(** [atofHex] and, for decimal literals, [decimal.floatBits]: the value and
    whether it overflowed. *)
Definition floatOfRead (r : readResult) : spec_float * bool :=
  if r.(r_hex) then
    let e := r.(r_dp) - 4 * r.(r_nd) in
    let f :=
      if 0 <=? e then float64_of_ratio r.(r_neg) (r.(r_digits) * 2 ^ e) 1
      else float64_of_ratio r.(r_neg) r.(r_digits) (2 ^ (- e)) in
    (f, isInf f)
  else if r.(r_nd) =? 0 then (S754_zero r.(r_neg), false)
  else if 310 <? r.(r_dp) then (S754_infinity r.(r_neg), true)
  else if r.(r_dp) <? -330 then (S754_zero r.(r_neg), false)
  else
    let e := r.(r_dp) - r.(r_nd) in
    let f :=
      if 0 <=? e then float64_of_ratio r.(r_neg) (r.(r_digits) * 10 ^ e) 1
      else float64_of_ratio r.(r_neg) r.(r_digits) (10 ^ (- e)) in
    (f, isInf f).

(** [atof64]: value, bytes consumed, error. *)
Definition atof64 (s : string) : spec_float * Z * option error :=
  match special s with
  | Some (val, n) => (val, n, None)
  | None =>
      match readFloat s with
      | None => (S754_zero false, 0, Some (syntaxError "ParseFloat" s))
      | Some r =>
          let '(f, ovf) := floatOfRead r in
          (f, r.(r_n),
           if ovf then Some (rangeError "ParseFloat" s) else None)
      end
  end.

Definition ParseFloat (s : string) : spec_float * option error :=
  let '(f, n, err) := atof64 s in
  let notSyntax :=
    match err with
    | None => true
    | Some (NumError _ _ ErrSyntax) => false
    | Some _ => true
    end in
  if negb (n =? Z.of_nat (String.length s)) && notSyntax
  then (S754_zero false, Some (syntaxError "ParseFloat" s))
  else (f, err).

End strconv.

(** ** Package strings *)

Module strings.

Fixpoint trimLeftByte (s : string) (c : ascii) : string :=
  match s with
  | String a s' => if Ascii.eqb a c then trimLeftByte s' c else s
  | EmptyString => s
  end.

(** [trimRightByte] drops bytes from the end; on a [string] read from the
    front this is: keep [a] unless everything after it is dropped and [a]
    is [c] itself. *)
Fixpoint trimRightByte (s : string) (c : ascii) : string :=
  match s with
  | String a s' =>
      match trimRightByte s' c with
      | EmptyString => if Ascii.eqb a c then EmptyString else String a EmptyString
      | r => String a r
      end
  | EmptyString => s
  end.

(** [Trim(s, cutset)] for a cutset of one ASCII byte [c], the path taken by
    the only call in the source, whose cutset is the double quote. *)
Definition Trim (s : string) (c : ascii) : string :=
  match s with
  | EmptyString => s
  | _ => trimLeftByte (trimRightByte s c) c
  end.

End strings.

(** ** Package encoding/json *)

Module json.

(** [isValidNumber] of encode.go; [digitsOf] is its loop
    [for len(s) > 0 && '0' <= s[0] && s[0] <= '9' { s = s[1:] }]. *)
Fixpoint digitsOf (s : string) : string :=
  match s with
  | String c s' => if isDigit c then digitsOf s' else s
  | EmptyString => s
  end.

Definition isValidNumber (s : string) : bool :=
  match s with
  | EmptyString => false
  | String c0 r0 =>
      let afterSign := if Ascii.eqb c0 "-" then Some r0 else Some s in
      match afterSign with
      | Some EmptyString | None => false
      | Some (String d0 r1) =>
          let afterInt :=
            if Ascii.eqb d0 "0" then Some r1
            else if (byte_of "1" <=? byte_of d0) && (byte_of d0 <=? byte_of "9")
                 then Some (digitsOf r1)
            else None in
          match afterInt with
          | None => false
          | Some s =>
              let s :=
                match s with
                | String p (String d r) =>
                    if Ascii.eqb p "." && isDigit d then digitsOf r else s
                | _ => s
                end in
              match s with
              | String e (String x r) =>
                  if Ascii.eqb e "e" || Ascii.eqb e "E" then
                    if Ascii.eqb x "+" || Ascii.eqb x "-" then
                      match r with
                      | EmptyString => false
                      | _ => String.eqb (digitsOf r) ""
                      end
                    else String.eqb (digitsOf (String x r)) ""
                  else false
              | EmptyString => true
              | _ => false
              end
          end
      end
  end.

(** [json.Marshal(n)] for [n] of type [json.Number]. *)
Definition MarshalNumber (n : string) : string * option error :=
  let numStr := if String.eqb n "" then "0" else n in
  if negb (isValidNumber numStr)
  then ("", Some (Errorf ("json: invalid number literal " ++ numStr)))
  else (numStr, None).

(** *** The scanner (scanner.go) *)

Inductive stepState :=
| stBeginValueOrEmpty | stBeginValue | stBeginStringOrEmpty | stBeginString
| stEndValue | stEndTop
| stInString | stInStringEsc | stInStringEscU | stInStringEscU1
| stInStringEscU12 | stInStringEscU123
| stNeg | st1 | st0 | stDot | stDot0 | stE | stESign | stE0
| stT | stTr | stTru | stF | stFa | stFal | stFals | stN | stNu | stNul
| stError.

Inductive parseState := parseObjectKey | parseObjectValue | parseArrayValue.

Inductive opcode :=
| scanContinue | scanBeginLiteral | scanBeginObject | scanObjectKey
| scanObjectValue | scanEndObject | scanBeginArray | scanArrayValue
| scanEndArray | scanSkipSpace | scanEnd | scanError.

(** The scanner; [parseStack] has the innermost state first (the source
    appends it last). *)
Record scanner := mkScanner {
  step : stepState;
  endTop : bool;
  parseStack : list parseState;
  err : option error;
  bytes : Z
}.

Definition maxNestingDepth : Z := 10000.

Definition reset : scanner := mkScanner stBeginValue false [] None 0.

Definition setStep (s : scanner) (st : stepState) : scanner :=
  mkScanner st s.(endTop) s.(parseStack) s.(err) s.(bytes).

(** [s.error(c, context)]: the message is
    ["invalid character " + quoteChar(c) + " " + context], kept here as the
    context followed by the byte. *)
Definition scanErr (s : scanner) (c : ascii) (context : string)
  : scanner * opcode :=
  (mkScanner stError s.(endTop) s.(parseStack)
     (Some (JsonSyntaxError (context ++ ": " ++ String c "") s.(bytes)))
     s.(bytes),
   scanError).

Definition pushParseState (s : scanner) (c : ascii) (newParseState : parseState)
    (successState : opcode) : scanner * opcode :=
  let s := mkScanner s.(step) s.(endTop) (newParseState :: s.(parseStack))
             s.(err) s.(bytes) in
  if Z.of_nat (List.length s.(parseStack)) <=? maxNestingDepth
  then (s, successState)
  else scanErr s c "exceeded max depth".

Definition popParseState (s : scanner) : scanner :=
  let stack := tail s.(parseStack) in
  match stack with
  | [] => mkScanner stEndTop true stack s.(err) s.(bytes)
  | _ => mkScanner stEndValue s.(endTop) stack s.(err) s.(bytes)
  end.

Definition setTop (s : scanner) (p : parseState) : scanner :=
  mkScanner s.(step) s.(endTop) (p :: tail s.(parseStack)) s.(err) s.(bytes).

Definition isSpace (c : ascii) : bool :=
  (byte_of c <=? byte_of " ")
  && (Ascii.eqb c " " || Ascii.eqb c "009" || Ascii.eqb c "013"
      || Ascii.eqb c "010").

Definition isHex (c : ascii) : bool :=
  isDigit c
  || ((byte_of "a" <=? byte_of c) && (byte_of c <=? byte_of "f"))
  || ((byte_of "A" <=? byte_of c) && (byte_of c <=? byte_of "F")).

Definition is19 (c : ascii) : bool :=
  (byte_of "1" <=? byte_of c) && (byte_of c <=? byte_of "9").

Definition stateEndTop (s : scanner) (c : ascii) : scanner * opcode :=
  if negb (isSpace c)
  then (fst (scanErr s c "after top-level value"), scanEnd)
  else (s, scanEnd).

Definition stateEndValue (s : scanner) (c : ascii) : scanner * opcode :=
  match s.(parseStack) with
  | [] =>
      stateEndTop (mkScanner stEndTop true s.(parseStack) s.(err) s.(bytes)) c
  | ps :: _ =>
      if isSpace c then (setStep s stEndValue, scanSkipSpace)
      else
        match ps with
        | parseObjectKey =>
            if Ascii.eqb c ":" then
              (setStep (setTop s parseObjectValue) stBeginValue, scanObjectKey)
            else scanErr s c "after object key"
        | parseObjectValue =>
            if Ascii.eqb c "," then
              (setStep (setTop s parseObjectKey) stBeginString, scanObjectValue)
            else if Ascii.eqb c "}" then (popParseState s, scanEndObject)
            else scanErr s c "after object key:value pair"
        | parseArrayValue =>
            if Ascii.eqb c "," then (setStep s stBeginValue, scanArrayValue)
            else if Ascii.eqb c "]" then (popParseState s, scanEndArray)
            else scanErr s c "after array element"
        end
  end.

Definition stateBeginString (s : scanner) (c : ascii) : scanner * opcode :=
  if isSpace c then (s, scanSkipSpace)
  else if Ascii.eqb c dquote then (setStep s stInString, scanBeginLiteral)
  else scanErr s c "looking for beginning of object key string".

Definition stateBeginValue (s : scanner) (c : ascii) : scanner * opcode :=
  if isSpace c then (s, scanSkipSpace)
  else if Ascii.eqb c "{" then
    pushParseState (setStep s stBeginStringOrEmpty) c parseObjectKey
      scanBeginObject
  else if Ascii.eqb c "[" then
    pushParseState (setStep s stBeginValueOrEmpty) c parseArrayValue
      scanBeginArray
  else if Ascii.eqb c dquote then (setStep s stInString, scanBeginLiteral)
  else if Ascii.eqb c "-" then (setStep s stNeg, scanBeginLiteral)
  else if Ascii.eqb c "0" then (setStep s st0, scanBeginLiteral)
  else if Ascii.eqb c "t" then (setStep s stT, scanBeginLiteral)
  else if Ascii.eqb c "f" then (setStep s stF, scanBeginLiteral)
  else if Ascii.eqb c "n" then (setStep s stN, scanBeginLiteral)
  else if is19 c then (setStep s st1, scanBeginLiteral)
  else scanErr s c "looking for beginning of value".

Definition stateBeginValueOrEmpty (s : scanner) (c : ascii)
  : scanner * opcode :=
  if isSpace c then (s, scanSkipSpace)
  else if Ascii.eqb c "]" then stateEndValue s c
  else stateBeginValue s c.

Definition stateBeginStringOrEmpty (s : scanner) (c : ascii)
  : scanner * opcode :=
  if isSpace c then (s, scanSkipSpace)
  else if Ascii.eqb c "}" then stateEndValue (setTop s parseObjectValue) c
  else stateBeginString s c.

Definition stateInString (s : scanner) (c : ascii) : scanner * opcode :=
  if Ascii.eqb c dquote then (setStep s stEndValue, scanContinue)
  else if Ascii.eqb c "\" then (setStep s stInStringEsc, scanContinue)
  else if byte_of c <? 32 then scanErr s c "in string literal"
  else (s, scanContinue).

Definition stateInStringEsc (s : scanner) (c : ascii) : scanner * opcode :=
  if Ascii.eqb c "b" || Ascii.eqb c "f" || Ascii.eqb c "n" || Ascii.eqb c "r"
     || Ascii.eqb c "t" || Ascii.eqb c "\" || Ascii.eqb c "/"
     || Ascii.eqb c dquote
  then (setStep s stInString, scanContinue)
  else if Ascii.eqb c "u" then (setStep s stInStringEscU, scanContinue)
  else scanErr s c "in string escape code".

(** [stateInStringEscU], [...U1], [...U12], [...U123]: [next] is the state
    after a hexadecimal digit. *)
Definition stateInStringEscHex (next : stepState) (s : scanner) (c : ascii)
  : scanner * opcode :=
  if isHex c then (setStep s next, scanContinue)
  else scanErr s c "in \u hexadecimal character escape".

Definition state0 (s : scanner) (c : ascii) : scanner * opcode :=
  if Ascii.eqb c "." then (setStep s stDot, scanContinue)
  else if Ascii.eqb c "e" || Ascii.eqb c "E" then (setStep s stE, scanContinue)
  else stateEndValue s c.

Definition state1 (s : scanner) (c : ascii) : scanner * opcode :=
  if isDigit c then (setStep s st1, scanContinue) else state0 s c.

Definition stateNeg (s : scanner) (c : ascii) : scanner * opcode :=
  if Ascii.eqb c "0" then (setStep s st0, scanContinue)
  else if is19 c then (setStep s st1, scanContinue)
  else scanErr s c "in numeric literal".

Definition stateDot (s : scanner) (c : ascii) : scanner * opcode :=
  if isDigit c then (setStep s stDot0, scanContinue)
  else scanErr s c "after decimal point in numeric literal".

Definition stateDot0 (s : scanner) (c : ascii) : scanner * opcode :=
  if isDigit c then (s, scanContinue)
  else if Ascii.eqb c "e" || Ascii.eqb c "E" then (setStep s stE, scanContinue)
  else stateEndValue s c.

Definition stateESign (s : scanner) (c : ascii) : scanner * opcode :=
  if isDigit c then (setStep s stE0, scanContinue)
  else scanErr s c "in exponent of numeric literal".

Definition stateE (s : scanner) (c : ascii) : scanner * opcode :=
  if Ascii.eqb c "+" || Ascii.eqb c "-" then (setStep s stESign, scanContinue)
  else stateESign s c.

Definition stateE0 (s : scanner) (c : ascii) : scanner * opcode :=
  if isDigit c then (s, scanContinue) else stateEndValue s c.

(** [stateT] ... [stateNul]: one expected byte of a literal, then [next]. *)
Definition stateLit (expect : ascii) (next : stepState) (context : string)
    (s : scanner) (c : ascii) : scanner * opcode :=
  if Ascii.eqb c expect then (setStep s next, scanContinue)
  else scanErr s c context.

(** [s.step(s, c)]. *)
Definition runStep (s : scanner) (c : ascii) : scanner * opcode :=
  match s.(step) with
  | stBeginValueOrEmpty => stateBeginValueOrEmpty s c
  | stBeginValue => stateBeginValue s c
  | stBeginStringOrEmpty => stateBeginStringOrEmpty s c
  | stBeginString => stateBeginString s c
  | stEndValue => stateEndValue s c
  | stEndTop => stateEndTop s c
  | stInString => stateInString s c
  | stInStringEsc => stateInStringEsc s c
  | stInStringEscU => stateInStringEscHex stInStringEscU1 s c
  | stInStringEscU1 => stateInStringEscHex stInStringEscU12 s c
  | stInStringEscU12 => stateInStringEscHex stInStringEscU123 s c
  | stInStringEscU123 => stateInStringEscHex stInString s c
  | stNeg => stateNeg s c
  | st1 => state1 s c
  | st0 => state0 s c
  | stDot => stateDot s c
  | stDot0 => stateDot0 s c
  | stE => stateE s c
  | stESign => stateESign s c
  | stE0 => stateE0 s c
  | stT => stateLit "r" stTr "in literal true (expecting 'r')" s c
  | stTr => stateLit "u" stTru "in literal true (expecting 'u')" s c
  | stTru => stateLit "e" stEndValue "in literal true (expecting 'e')" s c
  | stF => stateLit "a" stFa "in literal false (expecting 'a')" s c
  | stFa => stateLit "l" stFal "in literal false (expecting 'l')" s c
  | stFal => stateLit "s" stFals "in literal false (expecting 's')" s c
  | stFals => stateLit "e" stEndValue "in literal false (expecting 'e')" s c
  | stN => stateLit "u" stNu "in literal null (expecting 'u')" s c
  | stNu => stateLit "l" stNul "in literal null (expecting 'l')" s c
  | stNul => stateLit "l" stEndValue "in literal null (expecting 'l')" s c
  | stError => (s, scanError)
  end.

Definition bump (s : scanner) : scanner :=
  mkScanner s.(step) s.(endTop) s.(parseStack) s.(err) (s.(bytes) + 1).

(** [s.eof()]: the error it leaves, if any. *)
Definition eof (s : scanner) : option error :=
  match s.(err) with
  | Some e => Some e
  | None =>
      if s.(endTop) then None
      else
        let s := fst (runStep s " ") in
        if s.(endTop) then None
        else
          match s.(err) with
          | Some e => Some e
          | None =>
              Some (JsonSyntaxError "unexpected end of JSON input" s.(bytes))
          end
  end.

(** The loop of [checkValid]. *)
Fixpoint checkValidLoop (data : string) (scan : scanner) : option error :=
  match data with
  | EmptyString => eof scan
  | String c data' =>
      let '(scan, op) := runStep (bump scan) c in
      match op with
      | scanError => scan.(err)
      | _ => checkValidLoop data' scan
      end
  end.

Definition checkValid (data : string) : option error :=
  checkValidLoop data reset.

(** *** Decoding into a [map[string]interface{}] (decode.go)

    [Unmarshal] first runs [checkValid], then stores the top-level value.
    Inside an object every value goes to an [interface{}], where the only
    failure is a number that [strconv.ParseFloat] refuses ([convertNumber]);
    the scanner states tell which bytes are part of a number literal. *)

Definition inNumber (st : stepState) : bool :=
  match st with
  | stNeg | st1 | st0 | stDot | stDot0 | stE | stESign | stE0 => true
  | _ => false
  end.

Definition closeLiteral (cur : string) : list string :=
  match cur with EmptyString => [] | _ => [cur] end.

(** The number literals of [data], in order; [cur] is the one being read. *)
Fixpoint numberLiterals (data : string) (scan : scanner) (cur : string)
  : list string :=
  match data with
  | EmptyString => closeLiteral cur
  | String c data' =>
      let scan := fst (runStep scan c) in
      if inNumber scan.(step)
      then numberLiterals data' scan (cur ++ String c EmptyString)
      else closeLiteral cur ++ numberLiterals data' scan EmptyString
  end.

Definition convertNumber (s : string) : spec_float * option error :=
  match strconv.ParseFloat s with
  | (f, Some _) => (f, Some (UnmarshalTypeError ("number " ++ s)))
  | (f, None) => (f, None)
  end.

(** [d.savedError] after all the numbers were converted: the first error. *)
Fixpoint savedError (numbers : list string) : option error :=
  match numbers with
  | [] => None
  | n :: rest =>
      match convertNumber n with
      | (_, Some e) => Some e
      | (_, None) => savedError rest
      end
  end.

Fixpoint firstNonSpace (data : string) : option ascii :=
  match data with
  | EmptyString => None
  | String c data' => if isSpace c then firstNonSpace data' else Some c
  end.

(** What the top-level value of a valid text is; the decoder tells by the
    first byte after the leading white space ([d.value], [literalStore]). *)
Inductive topValue :=
| TopObject | TopArray | TopNull | TopString | TopBool | TopNumber.

Definition topLevel (data : string) : option topValue :=
  match firstNonSpace data with
  | None => None
  | Some c =>
      Some (if Ascii.eqb c "{" then TopObject
            else if Ascii.eqb c "[" then TopArray
            else if Ascii.eqb c "n" then TopNull
            else if Ascii.eqb c dquote then TopString
            else if Ascii.eqb c "t" || Ascii.eqb c "f" then TopBool
            else TopNumber)
  end.

(** [json.Unmarshal([]byte(data), &m)] for [m] of type
    [map[string]interface{}]: the error returned.  An object is stored, the
    literal null sets the map to nil, and an array, a string, a boolean or a
    number is an [UnmarshalTypeError]. *)
Definition Unmarshal (data : string) : option error :=
  match checkValid data with
  | Some e => Some e
  | None =>
      match topLevel data with
      | None => Some (JsonSyntaxError "unexpected end of JSON input" 0)
      | Some TopObject => savedError (numberLiterals data reset EmptyString)
      | Some TopNull => None
      | Some TopArray => Some (UnmarshalTypeError "array")
      | Some TopString => Some (UnmarshalTypeError "string")
      | Some TopBool => Some (UnmarshalTypeError "bool")
      | Some TopNumber => Some (UnmarshalTypeError "number")
      end
  end.

End json.

(** ** Package reflect *)

(** A call that may panic. *)
Inductive panics (A : Type) :=
| Returns (a : A)
| Panic (msg : string).
Arguments Returns {A} a.
Arguments Panic {A} msg.

Module reflect.

(** The kind of the dynamic type of a non-nil interface value. *)
Definition dynamicKind (i : GoValue) : Kind :=
  match i with
  | VNil => Invalid
  | VJsonNumber _ => String_
  | VString _ => String_
  | VBool _ => Bool
  | VInt _ => Int
  | VFloat64 _ => Float64
  | VOther k => k
  end.

(** [reflect.Value], of which only the kind is read; the zero [Value] has
    kind [Invalid]. *)
Record Value := mkValue { Value_Kind : Kind }.

Definition ValueOf (i : GoValue) : Value :=
  match i with
  | VNil => mkValue Invalid
  | _ => mkValue (dynamicKind i)
  end.

(** [reflect.Type] is an interface: [None] is the nil one, which
    [TypeOf(nil)] returns. *)
Record rtype := mkType { rtype_Kind : Kind }.

Definition TypeOf (i : GoValue) : option rtype :=
  match i with
  | VNil => None
  | _ => Some (mkType (dynamicKind i))
  end.

(** The method call [t.Kind()] on a [reflect.Type]. *)
Definition Type_Kind (t : option rtype) : panics Kind :=
  match t with
  | None => Panic "runtime error: invalid memory address or nil pointer dereference"
  | Some t => Returns t.(rtype_Kind)
  end.

End reflect.

(** ** pkg/variables/utils/type-utils.go *)

Module utils.

Definition StringifyValue (data : GoValue) : string * option error :=
  match data with
  | VJsonNumber n =>
      let '(marshal, _) := json.MarshalNumber n in
      (marshal, None)
  | VString value =>
      (String dquote EmptyString ++ value ++ String dquote EmptyString, None)
  | VBool b => (strconv.FormatBool b, None)
  | _ =>
      (EmptyString,
       Some (Errorf_v
               "complex values are not allowed. %v neeeds to be stringified"
               data))
  end.

Definition DestringifyValue (Data : string) : GoValue * option error :=
  match strconv.Atoi Data with
  | (intValue, None) => (VInt intValue, None)
  | _ =>
      match strconv.ParseFloat Data with
      | (floatValue, None) => (VFloat64 floatValue, None)
      | _ =>
          match strconv.ParseBool Data with
          | (boolValue, None) => (VBool boolValue, None)
          | _ => (VString (strings.Trim Data dquote), None)
          end
      end
  end.

Definition IsValidJSON (input : string) : bool :=
  match json.Unmarshal input with
  | Some _ => false
  | None => true
  end.

Section YAML.

(** [yaml.YAMLToJSONStrict] of github.com/ghodss/yaml, a collaborator. *)
Variable YAMLToJSONStrict : string -> string * option error.

Definition IsValidYAML (input : string) : bool :=
  match YAMLToJSONStrict input with
  | (_, Some _) => false
  | (jsonInput, None) =>
      let validJson := IsValidJSON jsonInput in
      validJson
  end.

End YAML.

Definition IsPrimitiveType (value : GoValue) : bool :=
  let val := reflect.ValueOf value in
  let kind := val.(reflect.Value_Kind) in
  Kind_eqb kind Int || Kind_eqb kind Int8 || Kind_eqb kind Int16
  || Kind_eqb kind Int32 || Kind_eqb kind Int64 || Kind_eqb kind Uint
  || Kind_eqb kind Uint8 || Kind_eqb kind Uint16 || Kind_eqb kind Uint32
  || Kind_eqb kind Uint64 || Kind_eqb kind Float32 || Kind_eqb kind Float64
  || Kind_eqb kind Bool.

Definition IsStringType (val : GoValue) : panics bool :=
  match reflect.Type_Kind (reflect.TypeOf val) with
  | Panic msg => Panic msg
  | Returns k => Returns (Kind_eqb k String_)
  end.

End utils.

(** ** api/restHandler/ResourceGroupRestHandler.go *)

Module restHandler.

(** A Go [map[string]bool]: the nil map, or a map. *)
Inductive GoMap :=
| nilMap
| mkMap (m : gmap string bool).

Definition GoMap_len (m : GoMap) : Z :=
  match m with
  | nilMap => 0
  | mkMap m => Z.of_nat (size m)
  end.

Definition GoMap_lookup (m : GoMap) (k : string) : option bool :=
  match m with
  | nilMap => None
  | mkMap m => m !! k
  end.

(** One call of [Enforcer.EnforceInBatch(token, resource, action, vals)]. *)
Record EnforceCall := mkEnforceCall {
  ec_token : string;
  ec_resource : string;
  ec_action : string;
  ec_vals : list string
}.

(** [func(token string, appObject []string, action string) map[string]bool];
    the result comes with the calls made to the authorization engine. *)
Definition AuthFunc : Type :=
  string -> list string -> string -> list EnforceCall * GoMap.

(** [resourceGroup.ResourceGroupType], a string type. *)
Definition ResourceGroupType : Type := string.

Definition StatusOK : Z := 200.
Definition StatusBadRequest : Z := 400.
Definition StatusUnauthorized : Z := 401.
Definition StatusInternalServerError : Z := 500.

(** [*http.Request], as far as the handlers read it: the headers (one value
    for each, under the name [Header.Get] is called with), the route
    variables of [mux.Vars(r)] and the body. *)
Record Request := mkRequest {
  Header : gmap string string;
  Vars : gmap string string;
  Body : string
}.

(** Indexing a Go [map[string]string]: a missing key reads as the empty
    string. *)
Definition map_index (m : gmap string string) (k : string) : string :=
  default EmptyString (m !! k).

Section Handler.

(** Fields of [ResourceGroupDto] that the handlers never touch, and the
    results of the service. *)
Context {Rest Resp : Type}.

(** Modelled from the spec: the struct [resourceGroup.ResourceGroupDto] is
    declared outside src/.  These are the fields the handlers read or write
    (section 3 of the specification: group kind, parent-resource identifier,
    target resource identifiers, application identifiers, environment
    identifier, acting user, attached strategy); [OtherFields] stands for
    all the others. *)
Record ResourceGroupDto := mkDto {
  UserId : Z;
  GroupType : ResourceGroupType;
  ParentResourceId : Z;
  EnvironmentId : Z;
  AppIds : list Z;
  ResourceIds : list Z;
  CheckAuthBatch : option AuthFunc;
  OtherFields : Rest
}.

Definition set_UserId (v : Z) (d : ResourceGroupDto) : ResourceGroupDto :=
  mkDto v d.(GroupType) d.(ParentResourceId) d.(EnvironmentId) d.(AppIds)
    d.(ResourceIds) d.(CheckAuthBatch) d.(OtherFields).

Definition set_GroupType (v : ResourceGroupType) (d : ResourceGroupDto)
  : ResourceGroupDto :=
  mkDto d.(UserId) v d.(ParentResourceId) d.(EnvironmentId) d.(AppIds)
    d.(ResourceIds) d.(CheckAuthBatch) d.(OtherFields).

Definition set_ParentResourceId (v : Z) (d : ResourceGroupDto)
  : ResourceGroupDto :=
  mkDto d.(UserId) d.(GroupType) v d.(EnvironmentId) d.(AppIds)
    d.(ResourceIds) d.(CheckAuthBatch) d.(OtherFields).

Definition set_ResourceIds (v : list Z) (d : ResourceGroupDto)
  : ResourceGroupDto :=
  mkDto d.(UserId) d.(GroupType) d.(ParentResourceId) d.(EnvironmentId)
    d.(AppIds) v d.(CheckAuthBatch) d.(OtherFields).

Definition set_CheckAuthBatch (v : option AuthFunc) (d : ResourceGroupDto)
  : ResourceGroupDto :=
  mkDto d.(UserId) d.(GroupType) d.(ParentResourceId) d.(EnvironmentId)
    d.(AppIds) d.(ResourceIds) v d.(OtherFields).

(** The operations of [resourceGroup.ResourceGroupService], with their
    arguments. *)
Inductive ServiceCall :=
| GetActiveResourceGroupList_ (token : string) (authFunc : option AuthFunc)
    (resourceId : Z) (groupType : ResourceGroupType)
| CreateResourceGroup_ (request : ResourceGroupDto) (token : string)
| UpdateResourceGroup_ (request : ResourceGroupDto) (token : string)
| DeleteResourceGroup_ (resourceGroupId : Z) (groupType : ResourceGroupType)
    (token : string) (authFunc : option AuthFunc)
| CheckResourceGroupPermissions_ (request : ResourceGroupDto) (token : string).

(** The third argument of [common.WriteJsonResp]. *)
Inductive Payload :=
| PNil
| PString (s : string)
| PResp (r : Resp).

(** What a handler does to its collaborators, in order. *)
Inductive Event :=
| Validate (request : ResourceGroupDto)            (* validator.Struct *)
| Log (level msg : string)                         (* logger.Errorw / Infow *)
| Service (call : ServiceCall)                     (* resourceGroupService.* *)
| WriteJsonResp (err : option error) (payload : Payload) (status : Z).

(** The constants [resourceGroup.APP_GROUP], [resourceGroup.ENV_GROUP],
    [casbin.ResourceApplications] and [casbin.ResourceEnvironment], declared
    outside src/. *)
Variables APP_GROUP ENV_GROUP : ResourceGroupType.
Variables ResourceApplications ResourceEnvironment : string.

(** [json.NewDecoder(r.Body).Decode(&request)] on a zero [request]: the
    struct as the decoder leaves it, and the error. *)
Variable Decode : string -> ResourceGroupDto * option error.

(** [ResourceGroupRestHandlerImpl]; the logger is the [Log] events. *)
Record ResourceGroupRestHandlerImpl := mkHandler {
  enforcer : string -> string -> string -> list string -> GoMap;
  userService : Request -> Z * option error;
  resourceGroupService : ServiceCall -> Resp * option error;
  validator : ResourceGroupDto -> option error
}.

Variable handler : ResourceGroupRestHandlerImpl.

Definition checkAppAuthBatch (token : string) (appObject : list string)
    (action : string) : list EnforceCall * GoMap :=
  let appResult := nilMap in
  if 0 <? Z.of_nat (List.length appObject) then
    ([mkEnforceCall token ResourceApplications action appObject],
     handler.(enforcer) token ResourceApplications action appObject)
  else ([], appResult).

Definition checkEnvAuthBatch (token : string) (envObject : list string)
    (action : string) : list EnforceCall * GoMap :=
  let appResult := nilMap in
  if 0 <? Z.of_nat (List.length envObject) then
    ([mkEnforceCall token ResourceEnvironment action envObject],
     handler.(enforcer) token ResourceEnvironment action envObject)
  else ([], appResult).

Definition getGroupTypeAndAuthFunc (groupType : string)
  : ResourceGroupType * option AuthFunc * option error :=
  if String.eqb groupType "env-group" then
    (ENV_GROUP, Some checkEnvAuthBatch, None)
  else if String.eqb groupType EmptyString || String.eqb groupType "app-group"
  then
    (* maintains backward compatibility for app groups *)
    (APP_GROUP, Some checkAppAuthBatch, None)
  else
    (EmptyString, None, Some (Errorf ("invalid group type " ++ groupType))).

(** The block under the comment "To maintain backward compatibility", the
    same in CreateResourceGroup, UpdateResourceGroup and
    CheckResourceGroupPermissions. *)
Definition backwardCompatibility (groupType : ResourceGroupType)
    (request : ResourceGroupDto) : ResourceGroupDto :=
  if String.eqb groupType APP_GROUP then
    let request :=
      if 0 <? request.(EnvironmentId)
      then set_ParentResourceId request.(EnvironmentId) request
      else request in
    let request :=
      if 0 <? Z.of_nat (List.length request.(AppIds))
      then set_ResourceIds request.(AppIds) request
      else request in
    request
  else request.

Definition GetActiveResourceGroupList (r : Request) : list Event :=
  let token := map_index r.(Header) "token" in
  let vars := r.(Vars) in
  match strconv.Atoi (map_index vars "resourceId") with
  | (_, Some err) => [WriteJsonResp (Some err) PNil StatusBadRequest]
  | (resourceId, None) =>
      match getGroupTypeAndAuthFunc (map_index vars "groupType") with
      | (_, _, Some err) => [WriteJsonResp (Some err) PNil StatusBadRequest]
      | (groupType, authFunc, None) =>
          let call :=
            GetActiveResourceGroupList_ token authFunc resourceId groupType in
          Service call ::
          match handler.(resourceGroupService) call with
          | (_, Some err) =>
              [Log "error" "service err, GetActiveResourceGroupList";
               WriteJsonResp (Some err) PNil StatusInternalServerError]
          | (res, None) => [WriteJsonResp None (PResp res) StatusOK]
          end
      end
  end.

Definition CreateResourceGroup (r : Request) : list Event :=
  let token := map_index r.(Header) "token" in
  let '(userId, err) := handler.(userService) r in
  if (userId =? 0) || negb (isNil err) then
    [WriteJsonResp err (PString "Unauthorized User") StatusUnauthorized]
  else
    match Decode r.(Body) with
    | (_, Some err) =>
        [Log "error" "request err, CreateResourceGroup";
         WriteJsonResp (Some err) PNil StatusBadRequest]
    | (request, None) =>
        let request := set_UserId userId request in
        Validate request ::
        match handler.(validator) request with
        | Some err =>
            [Log "error" "validation error";
             WriteJsonResp (Some err) PNil StatusBadRequest]
        | None =>
            let vars := r.(Vars) in
            match strconv.Atoi (map_index vars "resourceId") with
            | (_, Some err) => [WriteJsonResp (Some err) PNil StatusBadRequest]
            | (resourceId, None) =>
                match getGroupTypeAndAuthFunc request.(GroupType) with
                | (_, _, Some err) =>
                    [WriteJsonResp (Some err) PNil StatusBadRequest]
                | (groupType, authFunc, None) =>
                    let request := set_ParentResourceId resourceId request in
                    let request := set_GroupType groupType request in
                    let request := backwardCompatibility groupType request in
                    Validate request ::
                    match handler.(validator) request with
                    | Some err =>
                        [Log "error" "validation error";
                         WriteJsonResp (Some err) PNil StatusBadRequest]
                    | None =>
                        let request := set_CheckAuthBatch authFunc request in
                        let call := CreateResourceGroup_ request token in
                        Log "info" "request payload, CreateResourceGroup" ::
                        Service call ::
                        match handler.(resourceGroupService) call with
                        | (_, Some err) =>
                            [Log "error" "service err, CreateResourceGroup";
                             WriteJsonResp (Some err) PNil
                               StatusInternalServerError]
                        | (resp, None) =>
                            [WriteJsonResp None (PResp resp) StatusOK]
                        end
                    end
                end
            end
        end
    end.

Definition UpdateResourceGroup (r : Request) : list Event :=
  let token := map_index r.(Header) "token" in
  let '(userId, err) := handler.(userService) r in
  if (userId =? 0) || negb (isNil err) then
    [WriteJsonResp err (PString "Unauthorized User") StatusUnauthorized]
  else
    match Decode r.(Body) with
    | (_, Some err) =>
        [Log "error" "request err, UpdateResourceGroup";
         WriteJsonResp (Some err) PNil StatusBadRequest]
    | (request, None) =>
        let request := set_UserId userId request in
        match getGroupTypeAndAuthFunc request.(GroupType) with
        | (_, _, Some err) => [WriteJsonResp (Some err) PNil StatusBadRequest]
        | (groupType, authFunc, None) =>
            let request := set_GroupType groupType request in
            let request := backwardCompatibility groupType request in
            Validate request ::
            match handler.(validator) request with
            | Some err =>
                [Log "error" "validation error";
                 WriteJsonResp (Some err) PNil StatusBadRequest]
            | None =>
                let request := set_CheckAuthBatch authFunc request in
                let call := UpdateResourceGroup_ request token in
                Log "info" "request payload, UpdateResourceGroup" ::
                Service call ::
                match handler.(resourceGroupService) call with
                | (resp, Some err) =>
                    [Log "error" "service err, UpdateResourceGroup";
                     WriteJsonResp (Some err) (PResp resp)
                       StatusInternalServerError]
                | (resp, None) => [WriteJsonResp None (PResp resp) StatusOK]
                end
            end
        end
    end.

Definition DeleteResourceGroup (r : Request) : list Event :=
  let token := map_index r.(Header) "token" in
  let vars := r.(Vars) in
  match strconv.Atoi (map_index vars "resourceGroupId") with
  | (_, Some err) =>
      [WriteJsonResp (Some err) (PString EmptyString) StatusBadRequest]
  | (resourceGroupId, None) =>
      (* the error of the resolver is overwritten by the next assignment *)
      let '(groupType, authFunc, _) :=
        getGroupTypeAndAuthFunc (map_index vars "groupType") in
      let call :=
        DeleteResourceGroup_ resourceGroupId groupType token authFunc in
      Log "info" "request payload, DeleteResourceGroup" ::
      Service call ::
      match handler.(resourceGroupService) call with
      | (_, Some err) =>
          [Log "error" "service err, DeleteResourceGroup";
           WriteJsonResp (Some err) PNil StatusInternalServerError]
      | (resp, None) => [WriteJsonResp None (PResp resp) StatusOK]
      end
  end.

Definition CheckResourceGroupPermissions (r : Request) : list Event :=
  let token := map_index r.(Header) "token" in
  let '(userId, err) := handler.(userService) r in
  if (userId =? 0) || negb (isNil err) then
    [WriteJsonResp err (PString "Unauthorized User") StatusUnauthorized]
  else
    match Decode r.(Body) with
    | (_, Some err) =>
        [Log "error" "request err, CreateResourceGroup";
         WriteJsonResp (Some err) PNil StatusBadRequest]
    | (request, None) =>
        let request := set_UserId userId request in
        let vars := r.(Vars) in
        match strconv.Atoi (map_index vars "resourceId") with
        | (_, Some err) => [WriteJsonResp (Some err) PNil StatusBadRequest]
        | (resourceId, None) =>
            match getGroupTypeAndAuthFunc request.(GroupType) with
            | (_, _, Some err) =>
                [WriteJsonResp (Some err) PNil StatusBadRequest]
            | (groupType, authFunc, None) =>
                let request := set_GroupType groupType request in
                let request := set_ParentResourceId resourceId request in
                let request := backwardCompatibility groupType request in
                let request := set_CheckAuthBatch authFunc request in
                let call := CheckResourceGroupPermissions_ request token in
                Log "info" "request payload, CheckResourceGroupPermissions" ::
                Service call ::
                match handler.(resourceGroupService) call with
                | (_, Some err) =>
                    [Log "error" "service err";
                     WriteJsonResp (Some err) PNil StatusInternalServerError]
                | (resp, None) => [WriteJsonResp None (PResp resp) StatusOK]
                end
            end
        end
    end.

End Handler.

End restHandler.

(** * Vocabulary of the statements *)

(** ** Texts *)

Fixpoint repeatByte (c : ascii) (n : nat) : string :=
  match n with
  | O => EmptyString
  | S n => String c (repeatByte c n)
  end.

Definition firstByte (s : string) : option ascii :=
  match s with
  | String a _ => Some a
  | EmptyString => None
  end.

Fixpoint lastByte (s : string) : option ascii :=
  match s with
  | EmptyString => None
  | String a EmptyString => Some a
  | String _ s' => lastByte s'
  end.

Fixpoint dropLast (s : string) : string :=
  match s with
  | EmptyString => EmptyString
  | String _ EmptyString => EmptyString
  | String a s' => String a (dropLast s')
  end.

(** The fallback as the specification words it: a single layer of
    surrounding double quotes stripped, when there is one. *)
Definition stripOneLayer (s : string) : string :=
  match s with
  | String a rest =>
      match lastByte rest with
      | Some z =>
          if Ascii.eqb a dquote && Ascii.eqb z dquote then dropLast rest else s
      | None => s
      end
  | EmptyString => s
  end.

Definition quoted (s : string) : string :=
  String dquote EmptyString ++ s ++ String dquote EmptyString.

Definition newline : string := String "010" EmptyString.

(** White space, as the JSON scanner sees it. *)
Fixpoint allSpaces (s : string) : bool :=
  match s with
  | EmptyString => true
  | String c s' => json.isSpace c && allSpaces s'
  end.

(** ** Traces *)

Section Traces.
Import restHandler.

Context {Rest Resp : Type}.

(** The group kind and the strategy that a service call carries. *)
Definition callKind (call : @ServiceCall Rest)
  : ResourceGroupType * option AuthFunc :=
  match call with
  | GetActiveResourceGroupList_ _ authFunc _ groupType => (groupType, authFunc)
  | CreateResourceGroup_ request _ =>
      (request.(GroupType), request.(CheckAuthBatch))
  | UpdateResourceGroup_ request _ =>
      (request.(GroupType), request.(CheckAuthBatch))
  | DeleteResourceGroup_ _ groupType _ authFunc => (groupType, authFunc)
  | CheckResourceGroupPermissions_ request _ =>
      (request.(GroupType), request.(CheckAuthBatch))
  end.

(** The requests handed to the validator, in order. *)
Definition validated (trace : list (@Event Rest Resp))
  : list (@ResourceGroupDto Rest) :=
  flat_map (fun e => match e with Validate d => [d] | _ => [] end) trace.

(** The service calls of a trace, in order. *)
Definition serviceCalls (trace : list (@Event Rest Resp))
  : list (@ServiceCall Rest) :=
  flat_map (fun e => match e with Service c => [c] | _ => [] end) trace.

(** The status codes written, in order. *)
Definition statuses (trace : list (@Event Rest Resp)) : list Z :=
  flat_map (fun e => match e with WriteJsonResp _ _ s => [s] | _ => [] end)
    trace.

End Traces.

(** ** Sample collaborators *)

(** The converter of github.com/ghodss/yaml on two texts, a mapping and a
    bare list, and an error on the others. *)
Definition sampleYAMLToJSON (y : string) : string * option error :=
  if String.eqb y "a: 1" then ("{" ++ quoted "a" ++ ":1}", None)
  else if String.eqb y ("- 1" ++ newline ++ "- 2") then ("[1,2]", None)
  else (EmptyString, Some (ExternalError "yaml: unsupported in this sample")).

Module Sample.
Import restHandler.

(** A concrete set of collaborators, for the closed statements below:
    values for the four constants, a decoder that knows three bodies, a user
    service that knows one token, a validator that requires a parent
    resource, and a service that succeeds. *)
Definition APP_GROUP : ResourceGroupType := "app-group".
Definition ENV_GROUP : ResourceGroupType := "env-group".
Definition ResourceApplications : string := "applications".
Definition ResourceEnvironment : string := "environment".

Definition legacyBody : string :=
  "{" ++ quoted "environmentId" ++ ":7," ++ quoted "appIds" ++ ":[1,2]}".

Definition envBody : string :=
  "{" ++ quoted "groupType" ++ ":" ++ quoted "env-group" ++ ","
  ++ quoted "environmentId" ++ ":7," ++ quoted "appIds" ++ ":[1,2]}".

Definition parentBody : string :=
  "{" ++ quoted "parentResourceId" ++ ":3," ++ quoted "environmentId"
  ++ ":7," ++ quoted "appIds" ++ ":[1,2]}".

Definition zeroDto : @ResourceGroupDto unit :=
  mkDto 0 EmptyString 0 0 [] [] None tt.

Definition Decode (body : string) : @ResourceGroupDto unit * option error :=
  if String.eqb body legacyBody then
    (mkDto 0 EmptyString 0 7 [1; 2] [] None tt, None)
  else if String.eqb body envBody then
    (mkDto 0 "env-group" 0 7 [1; 2] [] None tt, None)
  else if String.eqb body parentBody then
    (mkDto 0 EmptyString 3 7 [1; 2] [] None tt, None)
  else (zeroDto, Some (ExternalError "unexpected end of JSON input")).

Definition handler : @ResourceGroupRestHandlerImpl unit string :=
  mkHandler
    (fun _ _ _ vals => mkMap (list_to_map (map (fun v => (v, true)) vals)))
    (fun r =>
       if String.eqb (map_index r.(Header) "token") "secret" then (1, None)
       else (0, None))
    (fun _ => ("done", None))
    (fun d =>
       if d.(ParentResourceId) =? 0
       then Some (ExternalError "ParentResourceId: required")
       else None).

Definition request (token : string) (vars : list (string * string))
    (body : string) : Request :=
  mkRequest (list_to_map [("token", token)]) (list_to_map vars) body.

End Sample.

Section SampleRuns.
Import restHandler.

Local Abbreviation sample f :=
  (f Sample.APP_GROUP Sample.ENV_GROUP Sample.ResourceApplications
     Sample.ResourceEnvironment).

Definition sampleUpdate : Request -> list (@Event unit string) :=
  sample (@UpdateResourceGroup unit string) Sample.Decode Sample.handler.
Definition sampleCreate : Request -> list (@Event unit string) :=
  sample (@CreateResourceGroup unit string) Sample.Decode Sample.handler.
Definition sampleCheck : Request -> list (@Event unit string) :=
  sample (@CheckResourceGroupPermissions unit string) Sample.Decode
    Sample.handler.
Definition sampleDelete : Request -> list (@Event unit string) :=
  sample (@DeleteResourceGroup unit string) Sample.handler.
Definition sampleList : Request -> list (@Event unit string) :=
  sample (@GetActiveResourceGroupList unit string) Sample.handler.

(** An update in the legacy shape: no group type, environment 7,
    applications 1 and 2. *)
Definition legacyUpdate : Request :=
  Sample.request "secret" [] Sample.legacyBody.

Definition legacyDecoded : @ResourceGroupDto unit :=
  mkDto 1 EmptyString 0 7 [1; 2] [] None tt.

Definition legacyNormalized : @ResourceGroupDto unit :=
  mkDto 1 "app-group" 7 7 [1; 2] [1; 2] None tt.

(** A delete whose group type does not resolve. *)
Definition bogusDelete : Request :=
  Sample.request "secret"
    [("resourceGroupId", "12"); ("groupType", "bogus")] EmptyString.

(** A request whose token the user service does not know. *)
Definition anonymous : Request :=
  Sample.request "guess" [("resourceId", "5")] Sample.legacyBody.

(** A request whose body the sample decoder does not know. *)
Definition garbled : Request := Sample.request "secret" [] "{".

End SampleRuns.

(** ** More readings of a trace *)

Section Responses.
Import restHandler.

Context {Rest Resp : Type}.

(** The arguments of the last event of a trace when that event is a
    response. *)
Fixpoint finalResponse (trace : list (@Event Rest Resp))
  : option (option error * @Payload Resp * Z) :=
  match trace with
  | [] => None
  | [WriteJsonResp e p s] => Some (e, p, s)
  | _ :: rest => finalResponse rest
  end.

(** The credential a service call carries. *)
Definition callToken (call : @ServiceCall Rest) : string :=
  match call with
  | GetActiveResourceGroupList_ token _ _ _ => token
  | CreateResourceGroup_ _ token => token
  | UpdateResourceGroup_ _ token => token
  | DeleteResourceGroup_ _ _ token _ => token
  | CheckResourceGroupPermissions_ _ token => token
  end.

(** The request a service call carries, when it carries one. *)
Definition callRequest (call : @ServiceCall Rest)
  : option (@ResourceGroupDto Rest) :=
  match call with
  | CreateResourceGroup_ request _ => Some request
  | UpdateResourceGroup_ request _ => Some request
  | CheckResourceGroupPermissions_ request _ => Some request
  | _ => None
  end.

(** The response that reports the result of a service call: the result
    itself with 200, or the error with 500 and, when [echo] is set, the
    result beside it. *)
Definition serviceOutcome (echo : bool) (result : Resp * option error)
  : option error * @Payload Resp * Z :=
  match result with
  | (resp, None) => (None, PResp resp, StatusOK)
  | (resp, Some e) =>
      (Some e, if echo then PResp resp else PNil, StatusInternalServerError)
  end.

(** The messages logged at level error, in order, and all the log
    entries. *)
Definition errorLogs (trace : list (@Event Rest Resp)) : list string :=
  flat_map
    (fun e =>
       match e with
       | Log level msg => if String.eqb level "error" then [msg] else []
       | _ => []
       end) trace.

Definition logEntries (trace : list (@Event Rest Resp))
  : list (string * string) :=
  flat_map (fun e => match e with Log l m => [(l, m)] | _ => [] end) trace.

(** How the log of a trace goes with the status written: a 500 follows
    exactly one error entry, a 200 follows none, a 401 follows no entry at
    all, and an error entry is only ever followed by a 400 or a 500. *)
Definition logMatchesStatus (trace : list (@Event Rest Resp)) : Prop :=
  (In StatusInternalServerError (statuses trace) ->
   length (errorLogs trace) = 1%nat)
  /\ (In StatusOK (statuses trace) -> errorLogs trace = [])
  /\ (In StatusUnauthorized (statuses trace) -> logEntries trace = [])
  /\ (errorLogs trace <> [] ->
      In StatusBadRequest (statuses trace)
      \/ In StatusInternalServerError (statuses trace)).

End Responses.

(** Two scanners that differ in the byte count and in which error they hold
    at most. *)
Definition sameScan (a b : json.scanner) : Prop :=
  json.step a = json.step b /\ json.endTop a = json.endTop b
  /\ json.parseStack a = json.parseStack b
  /\ isNil (json.err a) = isNil (json.err b).

(** The spellings that [strconv.ParseBool] accepts and that are no
    integer. *)
Definition booleanWords : list (string * bool) :=
  [("t", true); ("T", true); ("true", true); ("TRUE", true); ("True", true);
   ("f", false); ("F", false); ("false", false); ("FALSE", false);
   ("False", false)].

(** The bytes that can begin a text which [DestringifyValue] reads as a
    number or a boolean. *)
Definition beginsNumberOrBoolean (c : ascii) : bool :=
  isDigit c
  || existsb (Ascii.eqb c)
       ["+"; "-"; "."; "_"; "i"; "I"; "n"; "N"; "t"; "T"; "f"; "F"]%char.

(** The values that [StringifyValue] turns into a text that tells them
    apart: texts, booleans, and number tokens that are JSON numbers. *)
Definition stringifiable (v : GoValue) : bool :=
  match v with
  | VString _ | VBool _ => true
  | VJsonNumber tok => json.isValidNumber tok
  | _ => false
  end.

(** * Properties *)

(** ** strings.Trim *)

Lemma append_nil_r (s : string) : s ++ EmptyString = s.
Proof. induction s as [|a s IH]; simpl; [reflexivity | now rewrite IH]. Qed.

Lemma append_assoc (s t u : string) : (s ++ t) ++ u = s ++ (t ++ u).
Proof. induction s as [|a s IH]; simpl; [reflexivity | now rewrite IH]. Qed.

Lemma repeatByte_snoc (c : ascii) (n : nat) :
  String c (repeatByte c n) = repeatByte c n ++ String c EmptyString.
Proof. induction n as [|n IH]; simpl; [reflexivity | now rewrite <- IH]. Qed.

Lemma trimLeftByte_split (s : string) (c : ascii) :
  exists a, s = repeatByte c a ++ strings.trimLeftByte s c
            /\ firstByte (strings.trimLeftByte s c) <> Some c.
Proof.
  induction s as [|x s [a [IH1 IH2]]]; simpl.
  - exists O. split; [reflexivity | discriminate].
  - destruct (Ascii.eqb x c) eqn:E.
    + apply Ascii.eqb_eq in E. subst x. exists (S a). simpl.
      split; [now rewrite <- IH1 | exact IH2].
    + exists O. simpl. split; [reflexivity |].
      intros [= ->]. rewrite Ascii.eqb_refl in E. discriminate.
Qed.

Lemma trimRightByte_split (s : string) (c : ascii) :
  exists b, s = strings.trimRightByte s c ++ repeatByte c b
            /\ lastByte (strings.trimRightByte s c) <> Some c.
Proof.
  induction s as [|x s [b [IH1 IH2]]]; simpl.
  - exists O. split; [reflexivity | discriminate].
  - destruct (strings.trimRightByte s c) as [|y r] eqn:R.
    + destruct (Ascii.eqb x c) eqn:E.
      * apply Ascii.eqb_eq in E. subst x. exists (S b). simpl in *.
        split; [now rewrite <- IH1 | discriminate].
      * exists b. simpl in *. split; [now rewrite <- IH1 |].
        intros [= ->]. rewrite Ascii.eqb_refl in E. discriminate.
    + exists b. split; [simpl in *; now rewrite <- IH1 | exact IH2].
Qed.

Lemma lastByte_trimLeftByte (s : string) (c : ascii) :
  lastByte s <> Some c -> lastByte (strings.trimLeftByte s c) <> Some c.
Proof.
  induction s as [|x s IH]; simpl; [easy |].
  destruct (Ascii.eqb x c) eqn:E; [| easy].
  destruct s as [|y s]; [simpl; discriminate | intros H; apply IH, H].
Qed.

(** [Trim s c] is [s] without all its leading and all its trailing [c]. *)
Lemma Trim_strips_all (s : string) (c : ascii) :
  exists a b,
    s = repeatByte c a ++ strings.Trim s c ++ repeatByte c b
    /\ firstByte (strings.Trim s c) <> Some c
    /\ lastByte (strings.Trim s c) <> Some c.
Proof.
  destruct s as [|x s]; [exists O, O; simpl; repeat split; discriminate |].
  unfold strings.Trim.
  destruct (trimRightByte_split (String x s) c) as [b [R1 R2]].
  destruct (trimLeftByte_split (strings.trimRightByte (String x s) c) c)
    as [a [L1 L2]].
  exists a, b. split; [| split; [exact L2 | now apply lastByte_trimLeftByte]].
  rewrite <- append_assoc, <- L1. exact R1.
Qed.

Lemma trimRightByte_snoc (s : string) (c : ascii) :
  strings.trimRightByte (s ++ String c EmptyString) c
  = strings.trimRightByte s c.
Proof.
  induction s as [|x s IH]; simpl.
  - now rewrite Ascii.eqb_refl.
  - now rewrite IH.
Qed.

Lemma Trim_wrapped (s : string) (c : ascii) :
  strings.Trim (String c EmptyString ++ s ++ String c EmptyString) c
  = strings.Trim s c.
Proof.
  unfold strings.Trim. simpl. rewrite trimRightByte_snoc.
  destruct s as [|x s].
  - simpl. now rewrite Ascii.eqb_refl.
  - destruct (strings.trimRightByte (String x s) c) eqn:R.
    + now rewrite Ascii.eqb_refl.
    + simpl. now rewrite Ascii.eqb_refl.
Qed.

Lemma Trim_id (s : string) (c : ascii) :
  firstByte s <> Some c -> lastByte s <> Some c -> strings.Trim s c = s.
Proof.
  intros Hf Hl. destruct s as [|x s]; [reflexivity |].
  unfold strings.Trim.
  assert (R : forall t, lastByte t <> Some c -> strings.trimRightByte t c = t).
  { induction t as [|y t IH]; [reflexivity |]. simpl. intros H.
    destruct t as [|z t].
    - simpl. destruct (Ascii.eqb y c) eqn:E; [| reflexivity].
      apply Ascii.eqb_eq in E. now subst.
    - rewrite IH by exact H. reflexivity. }
  rewrite R by exact Hl. simpl.
  destruct (Ascii.eqb x c) eqn:E; [| reflexivity].
  apply Ascii.eqb_eq in E. subst. now elim Hf.
Qed.

(** ** Texts that begin with a double quote are no number and no boolean *)

Lemma Atoi_quoted (rest : string) :
  exists n e, strconv.Atoi (String dquote rest) = (n, Some e).
Proof.
  unfold strconv.Atoi.
  destruct ((0 <? Z.of_nat (String.length (String dquote rest)))
            && (Z.of_nat (String.length (String dquote rest)) <? 19)).
  - cbn. eauto.
  - cbn. eauto.
Qed.

Lemma readFloat_quoted (rest : string) :
  strconv.readFloat (String dquote rest) = None.
Proof.
  destruct rest as [|a [|b rest]]; reflexivity.
Qed.

Lemma ParseFloat_quoted (rest : string) :
  exists f e, strconv.ParseFloat (String dquote rest) = (f, Some e).
Proof.
  unfold strconv.ParseFloat, strconv.atof64.
  rewrite readFloat_quoted. cbn. eauto.
Qed.

Lemma ParseBool_quoted (rest : string) :
  exists b e, strconv.ParseBool (String dquote rest) = (b, Some e).
Proof.
  unfold strconv.ParseBool. cbn. eauto.
Qed.

Lemma DestringifyValue_quoted (rest : string) :
  utils.DestringifyValue (String dquote rest)
  = (VString (strings.Trim (String dquote rest) dquote), None).
Proof.
  unfold utils.DestringifyValue.
  destruct (Atoi_quoted rest) as [n [e ->]].
  destruct (ParseFloat_quoted rest) as [f [e' ->]].
  destruct (ParseBool_quoted rest) as [b [e'' ->]].
  reflexivity.
Qed.

(** ** DestringifyValue *)

(** C8, as stated, fails: on the text x wrapped in two layers of double
    quotes the fallback returns x, with both layers gone, where stripping a
    single layer leaves x in one layer of quotes; and a quote on one side
    only, which surrounds nothing, is stripped too. *)
Lemma DestringifyValue_strips_every_layer :
  utils.DestringifyValue (quoted (quoted "x")) = (VString "x", None)
  /\ stripOneLayer (quoted (quoted "x")) = quoted "x"
  /\ fst (utils.DestringifyValue (quoted (quoted "x")))
     <> VString (stripOneLayer (quoted (quoted "x")))
  /\ utils.DestringifyValue (String dquote "x") = (VString "x", None)
  /\ stripOneLayer (String dquote "x") = String dquote "x".
Proof.
  repeat split; try (vm_compute; reflexivity). vm_compute; discriminate.
Qed.

(** C8 (amended): for every input DestringifyValue returns a value and a nil
    error.  The value is the integer when strconv.Atoi accepts the text;
    otherwise the float when strconv.ParseFloat accepts it; otherwise the
    boolean when strconv.ParseBool accepts it; otherwise the text without
    all of its leading and all of its trailing double quotes (every layer,
    not a single one), the rest of the text unchanged. *)
Theorem DestringifyValue_never_fails_in_order (Data : string) :
  snd (utils.DestringifyValue Data) = None
  /\ (forall n, strconv.Atoi Data = (n, None) ->
        fst (utils.DestringifyValue Data) = VInt n)
  /\ (snd (strconv.Atoi Data) <> None ->
      forall f, strconv.ParseFloat Data = (f, None) ->
        fst (utils.DestringifyValue Data) = VFloat64 f)
  /\ (snd (strconv.Atoi Data) <> None ->
      snd (strconv.ParseFloat Data) <> None ->
      forall b, strconv.ParseBool Data = (b, None) ->
        fst (utils.DestringifyValue Data) = VBool b)
  /\ (snd (strconv.Atoi Data) <> None ->
      snd (strconv.ParseFloat Data) <> None ->
      snd (strconv.ParseBool Data) <> None ->
      exists (a b : nat) (t : string),
        fst (utils.DestringifyValue Data) = VString t
        /\ Data = repeatByte dquote a ++ t ++ repeatByte dquote b
        /\ firstByte t <> Some dquote
        /\ lastByte t <> Some dquote).
Proof.
  unfold utils.DestringifyValue.
  destruct (strconv.Atoi Data) as [n [e1|]];
    destruct (strconv.ParseFloat Data) as [f [e2|]];
    destruct (strconv.ParseBool Data) as [b [e3|]]; simpl;
    repeat split; try congruence;
    try (intros; exfalso; congruence).
  intros _ _ _.
  destruct (Trim_strips_all Data dquote) as [a [b' [H1 [H2 H3]]]].
  exists a, b', (strings.Trim Data dquote). auto.
Qed.

(** The order matters: each of these texts is accepted by a later parser
    too, and the earlier one wins. *)
Example DestringifyValue_order_examples :
  utils.DestringifyValue "1" = (VInt 1, None)
  /\ strconv.ParseBool "1" = (true, None)
  /\ utils.DestringifyValue "07" = (VInt 7, None)
  /\ utils.DestringifyValue "t" = (VBool true, None)
  /\ utils.DestringifyValue "abc" = (VString "abc", None).
Proof. repeat split; vm_compute; reflexivity. Qed.

(** ** Round trips *)

(** C6, as stated, fails twice.  The value DestringifyValue returns for the
    integer token 42 is a Go int, which StringifyValue refuses, so its
    stringification is not the input; and the text values 07 and " 7 "
    (leading zero, surrounding white space) do round-trip, because
    StringifyValue wraps them in quotes and they are not re-parsed as
    numbers. *)
Lemma roundtrip_counterexample :
  utils.StringifyValue (VJsonNumber "42") = ("42", None)
  /\ utils.DestringifyValue "42" = (VInt 42, None)
  /\ utils.StringifyValue (VInt 42)
     = (EmptyString,
        Some (Errorf_v
                "complex values are not allowed. %v neeeds to be stringified"
                (VInt 42)))
  /\ utils.DestringifyValue (fst (utils.StringifyValue (VString "07")))
     = (VString "07", None)
  /\ utils.DestringifyValue (fst (utils.StringifyValue (VString " 7 ")))
     = (VString " 7 ", None).
Proof. repeat split; vm_compute; reflexivity. Qed.

Lemma StringifyValue_text (t : string) :
  utils.StringifyValue (VString t) = (quoted t, None).
Proof. reflexivity. Qed.

(** C6 (amended): DestringifyValue after StringifyValue returns the original
    value for every boolean, and StringifyValue of that result is the same
    text again.  For an in-range decimal-integer json.Number token that is a
    JSON number, StringifyValue returns the token and DestringifyValue
    returns the Go int of the same numeric value, which is not a
    json.Number: StringifyValue rejects it with an error.  For a text value
    the composition returns the text without its leading and trailing
    double quotes; so every text that neither begins nor ends with a double
    quote round-trips, texts with leading zeros or surrounding white space
    included.  Only a bare text given to DestringifyValue itself is read as
    a number: 07 becomes the integer 7. *)
Theorem roundtrip_amended :
  (forall b : bool,
     utils.StringifyValue (VBool b) = (strconv.FormatBool b, None)
     /\ utils.DestringifyValue (strconv.FormatBool b) = (VBool b, None))
  /\ (forall (tok : string) (n : Z),
        strconv.Atoi tok = (n, None) ->
        json.isValidNumber tok = true ->
        utils.StringifyValue (VJsonNumber tok) = (tok, None)
        /\ utils.DestringifyValue tok = (VInt n, None)
        /\ exists e, utils.StringifyValue (VInt n) = (EmptyString, Some e))
  /\ (forall t : string,
        utils.DestringifyValue (fst (utils.StringifyValue (VString t)))
        = (VString (strings.Trim t dquote), None))
  /\ (forall t : string,
        firstByte t <> Some dquote -> lastByte t <> Some dquote ->
        utils.DestringifyValue (fst (utils.StringifyValue (VString t)))
        = (VString t, None))
  /\ utils.DestringifyValue "07" = (VInt 7, None).
Proof.
  assert (T : forall t : string,
             utils.DestringifyValue (fst (utils.StringifyValue (VString t)))
             = (VString (strings.Trim t dquote), None)).
  { intros t. rewrite StringifyValue_text. unfold quoted. simpl.
    rewrite DestringifyValue_quoted.
    change (String dquote (t ++ String dquote EmptyString))
      with (String dquote EmptyString ++ t ++ String dquote EmptyString).
    now rewrite Trim_wrapped. }
  split; [| split; [| split; [| split]]].
  - intros []; split; vm_compute; reflexivity.
  - intros tok n HA HV. split; [| split].
    + unfold utils.StringifyValue, json.MarshalNumber.
      destruct (String.eqb tok EmptyString) eqn:E.
      * apply String.eqb_eq in E. subst tok. discriminate HV.
      * rewrite HV. reflexivity.
    + unfold utils.DestringifyValue. rewrite HA. reflexivity.
    + simpl. eauto.
  - exact T.
  - intros t Hf Hl. rewrite T, Trim_id by assumption. reflexivity.
  - vm_compute. reflexivity.
Qed.

Example roundtrip_integer_token :
  strconv.Atoi "-120" = (-120, None) /\ json.isValidNumber "-120" = true.
Proof. split; vm_compute; reflexivity. Qed.

(** A number token that is no JSON number is not even stringified: the
    error of json.Marshal is dropped and the empty text returned. *)
Example StringifyValue_invalid_number :
  strconv.Atoi "+5" = (5, None)
  /\ utils.StringifyValue (VJsonNumber "+5") = (EmptyString, None).
Proof. split; vm_compute; reflexivity. Qed.

(** ** IsPrimitiveType and IsStringType *)

(** C10: IsPrimitiveType(nil) is false, the kind of the zero reflect.Value
    being Invalid; IsStringType(nil) panics, reflect.TypeOf(nil) being the
    nil Type on which Kind() is called; and for every non-nil value
    IsStringType returns (IsPrimitiveType, which calls nothing that can
    panic, returns on every value). *)
Theorem classification_at_nil :
  utils.IsPrimitiveType VNil = false
  /\ reflect.Value_Kind (reflect.ValueOf VNil) = Invalid
  /\ reflect.TypeOf VNil = None
  /\ (exists msg, utils.IsStringType VNil = Panic msg)
  /\ (forall v : GoValue, v <> VNil ->
        (exists b, utils.IsStringType v = Returns b)
        /\ (exists b, utils.IsPrimitiveType v = b)).
Proof.
  repeat split; try reflexivity.
  - eexists. reflexivity.
  - destruct v; try congruence; eexists; reflexivity.
  - eexists. reflexivity.
Qed.

Example classification_examples :
  utils.IsPrimitiveType (VInt 3) = true
  /\ utils.IsPrimitiveType (VFloat64 (S754_zero false)) = true
  /\ utils.IsPrimitiveType (VBool true) = true
  /\ utils.IsPrimitiveType (VString "a") = false
  /\ utils.IsPrimitiveType (VOther Uint16) = true
  /\ utils.IsPrimitiveType (VOther Map) = false
  /\ utils.IsStringType (VString "a") = Returns true
  /\ utils.IsStringType (VJsonNumber "1") = Returns true
  /\ utils.IsStringType (VInt 3) = Returns false.
Proof. repeat split; reflexivity. Qed.

(** ** IsValidJSON and IsValidYAML *)

Lemma checkValid_stuck (s : string) (sc : json.scanner) :
  json.step sc = json.stError -> json.err sc <> None ->
  json.checkValidLoop s sc <> None.
Proof.
  destruct s as [|c s]; intros Hs He; simpl.
  - unfold json.eof. destruct (json.err sc); congruence.
  - unfold json.runStep, json.bump. simpl. rewrite Hs. simpl. exact He.
Qed.

Lemma checkValid_after_top (s : string) :
  forall sc : json.scanner,
    json.step sc = json.stEndValue \/ json.step sc = json.stEndTop ->
    json.parseStack sc = [] ->
    json.checkValidLoop s sc = None -> allSpaces s = true.
Proof.
  induction s as [|c s IH]; intros sc Hs Hp H; [reflexivity |].
  simpl in H |- *.
  assert (R : json.runStep (json.bump sc) c
              = json.stateEndTop
                  (json.mkScanner json.stEndTop
                     (match json.step sc with json.stEndValue => true | _ => json.endTop sc end)
                     [] (json.err sc) (json.bytes sc + 1)) c).
  { unfold json.runStep, json.bump. simpl.
    destruct Hs as [-> | ->]; simpl.
    - unfold json.stateEndValue. simpl. rewrite Hp. reflexivity.
    - rewrite Hp. reflexivity. }
  rewrite R in H. unfold json.stateEndTop in H.
  destruct (json.isSpace c) eqn:Sp; simpl in H |- *.
  - eapply IH; [| | exact H]; simpl; auto.
  - exfalso. revert H. apply checkValid_stuck; simpl; congruence.
Qed.

Lemma checkValid_literal_step (expect : ascii) (next : json.stepState)
    (ctx : string) (sc : json.scanner) (s : string) :
  json.endTop sc = false ->
  json.runStep sc " " = json.stateLit expect next ctx sc " " ->
  (forall c, json.runStep (json.bump sc) c
             = json.stateLit expect next ctx (json.bump sc) c) ->
  expect <> " "%char ->
  json.checkValidLoop s sc = None ->
  exists rest, s = String expect rest
               /\ json.checkValidLoop rest (json.setStep (json.bump sc) next)
                  = None.
Proof.
  intros Ht Hsp Hstep Hne H. destruct s as [|c s]; simpl in H.
  - exfalso. unfold json.eof in H. rewrite Ht, Hsp in H.
    unfold json.stateLit in H.
    destruct (Ascii.eqb_spec " " expect) as [E | N]; [congruence |].
    simpl in H. rewrite Ht in H. destruct (json.err sc); discriminate.
  - rewrite Hstep in H. unfold json.stateLit in H.
    destruct (Ascii.eqb_spec c expect) as [-> | N].
    + exists s. split; [reflexivity | exact H].
    + simpl in H. discriminate.
Qed.

Lemma checkValid_null_tail (rest : string) (sc : json.scanner) :
  json.step sc = json.stN -> json.parseStack sc = [] ->
  json.endTop sc = false ->
  json.checkValidLoop rest sc = None ->
  exists b, rest = "ull" ++ b /\ allSpaces b = true.
Proof.
  intros Hs Hp Ht H.
  destruct (checkValid_literal_step "u" json.stNu
              "in literal null (expecting 'u')" sc rest) as [r1 [-> H1]];
    try assumption; try discriminate.
  { unfold json.runStep. rewrite Hs. reflexivity. }
  { intros c. unfold json.runStep. simpl. rewrite Hs. reflexivity. }
  destruct (checkValid_literal_step "l" json.stNul
              "in literal null (expecting 'l')"
              (json.setStep (json.bump sc) json.stNu) r1) as [r2 [-> H2]];
    try exact H1; try assumption; try discriminate; try reflexivity.
  destruct (checkValid_literal_step "l" json.stEndValue
              "in literal null (expecting 'l')"
              (json.setStep
                 (json.bump (json.setStep (json.bump sc) json.stNu))
                 json.stNul) r2) as [r3 [-> H3]];
    try exact H2; try assumption; try discriminate; try reflexivity.
  exists r3. split; [reflexivity |].
  eapply checkValid_after_top; [| | exact H3]; simpl; auto.
Qed.

Lemma checkValid_null_lead (s : string) :
  forall sc : json.scanner,
    json.step sc = json.stBeginValue -> json.parseStack sc = [] ->
    json.endTop sc = false ->
    json.firstNonSpace s = Some "n"%char ->
    json.checkValidLoop s sc = None ->
    exists a b, s = a ++ "null" ++ b
                /\ allSpaces a = true /\ allSpaces b = true.
Proof.
  induction s as [|c s IH]; intros sc Hs Hp Ht Hf H; [discriminate |].
  simpl in Hf, H.
  unfold json.runStep in H. simpl in H. rewrite Hs in H.
  unfold json.stateBeginValue in H.
  destruct (json.isSpace c) eqn:Sp.
  - destruct (IH (json.bump sc)) as [a [b [-> [Ha Hb]]]]; auto.
    exists (String c a), b. simpl. rewrite Sp, Ha. auto.
  - injection Hf as ->. simpl in H.
    destruct (checkValid_null_tail s (json.setStep (json.bump sc) json.stN))
      as [b [-> Hb]]; auto.
    exists EmptyString, b. auto.
Qed.

Lemma topLevel_null (s : string) :
  json.topLevel s = Some json.TopNull -> json.firstNonSpace s = Some "n"%char.
Proof.
  unfold json.topLevel. destruct (json.firstNonSpace s) as [c|]; [| discriminate].
  destruct (Ascii.eqb_spec c "{"); [discriminate |].
  destruct (Ascii.eqb_spec c "["); [discriminate |].
  destruct (Ascii.eqb_spec c "n"); [congruence |].
  destruct (Ascii.eqb c dquote); [discriminate |].
  destruct (Ascii.eqb c "t" || Ascii.eqb c "f"); discriminate.
Qed.

(** A valid text whose top-level value is the literal null is the word null
    between white space. *)
Lemma checkValid_null (s : string) :
  json.checkValid s = None -> json.topLevel s = Some json.TopNull ->
  exists a b, s = a ++ "null" ++ b /\ allSpaces a = true /\ allSpaces b = true.
Proof.
  intros H T. apply topLevel_null in T.
  eapply checkValid_null_lead; [| | | exact T | exact H]; reflexivity.
Qed.

(** C7, as stated, fails: the scalar null is accepted, json.Unmarshal
    storing it into a map without error. *)
Lemma IsValidJSON_accepts_null :
  utils.IsValidJSON "null" = true
  /\ json.topLevel "null" = Some json.TopNull
  /\ utils.IsValidJSON "  null " = true.
Proof. repeat split; vm_compute; reflexivity. Qed.

(** C7 (amended): IsValidJSON returns true only for a valid JSON text whose
    top-level value is an object or the literal null (the word null between
    white space), and rejects arrays,
    strings, booleans and numbers; IsValidYAML returns false when the strict
    conversion to JSON fails and when IsValidJSON rejects the converted
    text, and is IsValidJSON of the converted text otherwise.  In particular
    IsValidJSON of the empty object is true and of the empty array false;
    IsValidYAML of [a: 1] is true when the converter yields the object with
    the one member a, and of a bare list it is false as soon as the
    converter yields an array. *)
Theorem IsValidJSON_object_or_null :
  (forall s : string,
     utils.IsValidJSON s = true ->
     json.checkValid s = None
     /\ (json.topLevel s = Some json.TopObject
         \/ exists a b : string,
              s = a ++ "null" ++ b
              /\ allSpaces a = true /\ allSpaces b = true))
  /\ (forall s : string,
        json.topLevel s = Some json.TopArray \/ json.topLevel s = Some json.TopString
        \/ json.topLevel s = Some json.TopBool \/ json.topLevel s = Some json.TopNumber ->
        utils.IsValidJSON s = false)
  /\ (forall (YAMLToJSONStrict : string -> string * option error)
             (input : string),
        (snd (YAMLToJSONStrict input) <> None ->
         utils.IsValidYAML YAMLToJSONStrict input = false)
        /\ (utils.IsValidJSON (fst (YAMLToJSONStrict input)) = false ->
            utils.IsValidYAML YAMLToJSONStrict input = false)
        /\ (snd (YAMLToJSONStrict input) = None ->
            utils.IsValidYAML YAMLToJSONStrict input
            = utils.IsValidJSON (fst (YAMLToJSONStrict input))))
  /\ utils.IsValidJSON "{}" = true
  /\ utils.IsValidJSON "[]" = false
  /\ (forall YAMLToJSONStrict : string -> string * option error,
        YAMLToJSONStrict "a: 1" = ("{" ++ quoted "a" ++ ":1}", None) ->
        utils.IsValidYAML YAMLToJSONStrict "a: 1" = true)
  /\ (forall YAMLToJSONStrict : string -> string * option error,
        json.topLevel (fst (YAMLToJSONStrict ("- 1" ++ newline ++ "- 2")))
        = Some json.TopArray ->
        utils.IsValidYAML YAMLToJSONStrict ("- 1" ++ newline ++ "- 2") = false).
Proof.
  assert (A : forall s : string,
             json.topLevel s = Some json.TopArray \/ json.topLevel s = Some json.TopString
             \/ json.topLevel s = Some json.TopBool \/ json.topLevel s = Some json.TopNumber ->
             utils.IsValidJSON s = false).
  { intros s H. unfold utils.IsValidJSON, json.Unmarshal.
    destruct (json.checkValid s); [reflexivity |].
    destruct H as [-> | [-> | [-> | ->]]]; reflexivity. }
  repeat apply conj.
  - intros s. unfold utils.IsValidJSON, json.Unmarshal.
    destruct (json.checkValid s) eqn:V; [discriminate |].
    destruct (json.topLevel s) as [[]|] eqn:T; try discriminate; auto.
    intros _. split; [reflexivity | right].
    apply checkValid_null; assumption.
  - exact A.
  - intros Y input. unfold utils.IsValidYAML.
    destruct (Y input) as [j [e|]]; simpl; repeat split; congruence.
  - vm_compute; reflexivity.
  - vm_compute; reflexivity.
  - intros Y H. unfold utils.IsValidYAML. rewrite H. vm_compute. reflexivity.
  - intros Y H. unfold utils.IsValidYAML.
    destruct (Y ("- 1" ++ newline ++ "- 2")) as [j [e|]]; [reflexivity |].
    apply A. left. exact H.
Qed.

Example IsValidYAML_examples :
  utils.IsValidYAML sampleYAMLToJSON "a: 1" = true
  /\ utils.IsValidYAML sampleYAMLToJSON ("- 1" ++ newline ++ "- 2") = false
  /\ utils.IsValidYAML sampleYAMLToJSON "a: [" = false.
Proof. repeat split; vm_compute; reflexivity. Qed.

(** A number that overflows float64 makes an object invalid: not every
    valid object is accepted. *)
Example IsValidJSON_object_examples :
  utils.IsValidJSON ("{" ++ quoted "a" ++ ":[1,2.5e3,{}], " ++ quoted "b"
                     ++ ": null}") = true
  /\ utils.IsValidJSON ("{" ++ quoted "a" ++ ":1e999}") = false
  /\ utils.IsValidJSON ("{" ++ quoted "a" ++ ":1} x") = false
  /\ utils.IsValidJSON "true" = false
  /\ utils.IsValidJSON "12" = false
  /\ utils.IsValidJSON (quoted "a") = false.
Proof. repeat split; vm_compute; reflexivity. Qed.

(** ** The dispatcher *)

Section HandlerProperties.
Import restHandler.

Context {Rest Resp : Type}.
Variables APP_GROUP ENV_GROUP : ResourceGroupType.
Variables ResourceApplications ResourceEnvironment : string.
Variable Decode : string -> @ResourceGroupDto Rest * option error.
Variable handler : @ResourceGroupRestHandlerImpl Rest Resp.

Local Abbreviation resolver :=
  (getGroupTypeAndAuthFunc APP_GROUP ENV_GROUP ResourceApplications
     ResourceEnvironment handler).
Local Abbreviation appAuth := (checkAppAuthBatch ResourceApplications handler).
Local Abbreviation envAuth := (checkEnvAuthBatch ResourceEnvironment handler).
Local Abbreviation List_ :=
  (GetActiveResourceGroupList APP_GROUP ENV_GROUP ResourceApplications
     ResourceEnvironment handler).
Local Abbreviation Create :=
  (CreateResourceGroup APP_GROUP ENV_GROUP ResourceApplications
     ResourceEnvironment Decode handler).
Local Abbreviation Update :=
  (UpdateResourceGroup APP_GROUP ENV_GROUP ResourceApplications
     ResourceEnvironment Decode handler).
Local Abbreviation Delete :=
  (DeleteResourceGroup APP_GROUP ENV_GROUP ResourceApplications
     ResourceEnvironment handler).
Local Abbreviation Check_ :=
  (CheckResourceGroupPermissions APP_GROUP ENV_GROUP ResourceApplications
     ResourceEnvironment Decode handler).
Local Abbreviation normalize := (backwardCompatibility APP_GROUP).

Lemma resolver_cases (groupType : string) :
  (groupType = "env-group"
   /\ resolver groupType = (ENV_GROUP, Some envAuth, None))
  \/ ((groupType = EmptyString \/ groupType = "app-group")
      /\ resolver groupType = (APP_GROUP, Some appAuth, None))
  \/ (groupType <> "env-group" /\ groupType <> EmptyString
      /\ groupType <> "app-group"
      /\ resolver groupType
         = (EmptyString, None,
            Some (Errorf ("invalid group type " ++ groupType)))).
Proof.
  unfold getGroupTypeAndAuthFunc.
  destruct (String.eqb groupType "env-group") eqn:E1.
  - left. apply String.eqb_eq in E1. auto.
  - apply String.eqb_neq in E1.
    destruct (String.eqb groupType EmptyString) eqn:E2.
    + right; left. apply String.eqb_eq in E2. auto.
    + apply String.eqb_neq in E2.
      destruct (String.eqb groupType "app-group") eqn:E3; simpl.
      * right; left. apply String.eqb_eq in E3. auto.
      * apply String.eqb_neq in E3. right; right. auto.
Qed.

Lemma normalize_keeps_kind (k : ResourceGroupType)
    (d : @ResourceGroupDto Rest) :
  (normalize k d).(GroupType) = d.(GroupType)
  /\ (normalize k d).(CheckAuthBatch) = d.(CheckAuthBatch).
Proof.
  unfold backwardCompatibility.
  destruct (String.eqb k APP_GROUP); [| auto].
  destruct (0 <? d.(EnvironmentId));
    destruct (0 <? Z.of_nat (List.length d.(AppIds)));
    simpl;
    repeat match goal with
           | |- context [if ?c then _ else _] => destruct c
           end; auto.
Qed.

(** Case analysis on everything a handler branches on. *)
Ltac handler_cases :=
  repeat match goal with
         | |- context [match ?x with _ => _ end] =>
             lazymatch x with
             | context [match _ with _ => _ end] => fail
             | _ => destruct x eqn:?
             end
         | H : context [match ?x with _ => _ end] |- _ =>
             lazymatch x with
             | context [match _ with _ => _ end] => fail
             | _ => destruct x eqn:?
             end
         end.

Ltac kind_finish :=
  simpl;
  try match goal with H : Decode _ = _ |- _ => rewrite H end; simpl;
  try match goal with H : resolver _ = _ |- _ => simpl in H; rewrite H end;
  simpl; first [reflexivity | f_equal; apply normalize_keeps_kind].

(** C1: the resolver returns APP_GROUP with the application-scoped strategy
    for the empty token and for app-group, ENV_GROUP with the
    environment-scoped strategy for env-group, and the zero kind, no
    strategy and the invalid-group-type error for every other token.  It is
    a function of the token alone, and every entry point hands the service
    the kind and strategy it resolved for that entry point's token (the
    route variable for list and delete, the decoded body's field for create,
    update and permission check). *)
Theorem getGroupTypeAndAuthFunc_resolves (groupType : string) :
  (groupType = EmptyString \/ groupType = "app-group" ->
   resolver groupType = (APP_GROUP, Some appAuth, None))
  /\ (groupType = "env-group" ->
      resolver groupType = (ENV_GROUP, Some envAuth, None))
  /\ (groupType <> EmptyString -> groupType <> "app-group" ->
      groupType <> "env-group" ->
      resolver groupType
      = (EmptyString, None,
         Some (Errorf ("invalid group type " ++ groupType))))
  /\ (forall (r : Request) (call : ServiceCall),
        In call (serviceCalls (List_ r)) ->
        callKind call = fst (resolver (map_index r.(Vars) "groupType")))
  /\ (forall (r : Request) (call : ServiceCall),
        In call (serviceCalls (Delete r)) ->
        callKind call = fst (resolver (map_index r.(Vars) "groupType")))
  /\ (forall (r : Request) (call : ServiceCall),
        In call (serviceCalls (Create r)) ->
        callKind call = fst (resolver (fst (Decode r.(Body))).(GroupType)))
  /\ (forall (r : Request) (call : ServiceCall),
        In call (serviceCalls (Update r)) ->
        callKind call = fst (resolver (fst (Decode r.(Body))).(GroupType)))
  /\ (forall (r : Request) (call : ServiceCall),
        In call (serviceCalls (Check_ r)) ->
        callKind call = fst (resolver (fst (Decode r.(Body))).(GroupType))).
Proof.
  repeat apply conj.
  - intros H. destruct (resolver_cases groupType) as [[E _] | [[_ R] | [_ [N1 [N2 _]]]]];
      [destruct H; subst; discriminate | exact R | destruct H; contradiction].
  - intros H. destruct (resolver_cases groupType) as [[_ R] | [[E _] | [N [_ _]]]];
      [exact R | destruct E; subst; discriminate | contradiction].
  - intros N1 N2 N3.
    destruct (resolver_cases groupType) as [[E _] | [[E _] | [_ [_ [_ R]]]]];
      [contradiction | destruct E; contradiction | exact R].
  - intros r call. unfold GetActiveResourceGroupList.
    handler_cases; simpl; intros H; try contradiction;
      destruct H as [<- | []]; kind_finish.
  - intros r call. unfold DeleteResourceGroup.
    handler_cases; simpl; intros H; try contradiction;
      destruct H as [<- | []]; kind_finish.
  - intros r call. unfold CreateResourceGroup.
    handler_cases; simpl; intros H; try contradiction;
      destruct H as [<- | []]; kind_finish.
  - intros r call. unfold UpdateResourceGroup.
    handler_cases; simpl; intros H; try contradiction;
      destruct H as [<- | []]; kind_finish.
  - intros r call. unfold CheckResourceGroupPermissions.
    handler_cases; simpl; intros H; try contradiction;
      destruct H as [<- | []]; kind_finish.
Qed.

(** ** Normalization *)

Ltac call_finish :=
  simpl in *; subst;
  repeat match goal with
         | H : ?l = (_, _) |- context [?l] => rewrite H
         end;
  simpl; try reflexivity.

(** C2: with the kind resolved to APP_GROUP, the normalization sets
    parentResourceId to environmentId exactly when environmentId > 0 and
    resourceIds to appIds exactly when appIds is non-empty, each override
    depending on its own condition only, and it leaves every other field as
    it was; with the kind resolved to ENV_GROUP it changes no field.  Each of
    create, update and permission check hands the service the request
    normalized once: the decoded request with the acting user, the resolved
    kind and (create, permission check) the route's resource identifier,
    then the normalization, then the strategy. *)
Theorem backwardCompatibility_projections
    (request : @ResourceGroupDto Rest) (Hkinds : ENV_GROUP <> APP_GROUP) :
  let n := normalize APP_GROUP request in
  (0 < request.(EnvironmentId) ->
   n.(ParentResourceId) = request.(EnvironmentId))
  /\ (request.(EnvironmentId) <= 0 ->
      n.(ParentResourceId) = request.(ParentResourceId))
  /\ (request.(AppIds) <> [] -> n.(ResourceIds) = request.(AppIds))
  /\ (request.(AppIds) = [] -> n.(ResourceIds) = request.(ResourceIds))
  /\ (n.(UserId) = request.(UserId)
      /\ n.(GroupType) = request.(GroupType)
      /\ n.(EnvironmentId) = request.(EnvironmentId)
      /\ n.(AppIds) = request.(AppIds)
      /\ n.(CheckAuthBatch) = request.(CheckAuthBatch)
      /\ n.(OtherFields) = request.(OtherFields))
  /\ normalize ENV_GROUP request = request
  /\ (forall (r : Request) (req : ResourceGroupDto) (tok : string),
        In (CreateResourceGroup_ req tok) (serviceCalls (Create r)) ->
        let decoded := fst (Decode r.(Body)) in
        let userId := fst (handler.(userService) r) in
        let resourceId := fst (strconv.Atoi (map_index r.(Vars) "resourceId")) in
        let kind := fst (fst (resolver decoded.(GroupType))) in
        let authFunc := snd (fst (resolver decoded.(GroupType))) in
        req = set_CheckAuthBatch authFunc
                (normalize kind
                   (set_GroupType kind
                      (set_ParentResourceId resourceId
                         (set_UserId userId decoded)))))
  /\ (forall (r : Request) (req : ResourceGroupDto) (tok : string),
        In (UpdateResourceGroup_ req tok) (serviceCalls (Update r)) ->
        let decoded := fst (Decode r.(Body)) in
        let userId := fst (handler.(userService) r) in
        let kind := fst (fst (resolver decoded.(GroupType))) in
        let authFunc := snd (fst (resolver decoded.(GroupType))) in
        req = set_CheckAuthBatch authFunc
                (normalize kind (set_GroupType kind (set_UserId userId decoded))))
  /\ (forall (r : Request) (req : ResourceGroupDto) (tok : string),
        In (CheckResourceGroupPermissions_ req tok) (serviceCalls (Check_ r)) ->
        let decoded := fst (Decode r.(Body)) in
        let userId := fst (handler.(userService) r) in
        let resourceId := fst (strconv.Atoi (map_index r.(Vars) "resourceId")) in
        let kind := fst (fst (resolver decoded.(GroupType))) in
        let authFunc := snd (fst (resolver decoded.(GroupType))) in
        req = set_CheckAuthBatch authFunc
                (normalize kind
                   (set_ParentResourceId resourceId
                      (set_GroupType kind (set_UserId userId decoded))))).
Proof.
  assert (E : String.eqb ENV_GROUP APP_GROUP = false)
    by (apply String.eqb_neq; exact Hkinds).
  cbv zeta. repeat apply conj;
    try (unfold backwardCompatibility; rewrite ?String.eqb_refl, ?E;
         destruct request as [u g p e a rs c o]; simpl;
         destruct (Z.ltb_spec 0 e); destruct a; simpl;
         intros; (reflexivity || congruence || lia)).
  - intros r req tok. unfold CreateResourceGroup.
    handler_cases; simpl; intros H; try contradiction;
      destruct H as [[= <- <-] | []]; call_finish.
  - intros r req tok. unfold UpdateResourceGroup.
    handler_cases; simpl; intros H; try contradiction;
      destruct H as [[= <- <-] | []]; call_finish.
  - intros r req tok. unfold CheckResourceGroupPermissions.
    handler_cases; simpl; intros H; try contradiction;
      destruct H as [[= <- <-] | []]; call_finish.
Qed.

(** ** Failure paths *)

(** C3: in DeleteResourceGroup the error of the resolver is not checked: once
    the route's group identifier has parsed (the resolver runs only then),
    an unresolvable group-type token still leads to exactly one call of
    ResourceGroupService.DeleteResourceGroup, with the zero kind and the nil
    strategy, and the response is that of the service (200 or 500), never a
    BadRequest. *)
Theorem DeleteResourceGroup_ignores_resolver_error
    (r : Request) (resourceGroupId : Z)
    (Hid : strconv.Atoi (map_index r.(Vars) "resourceGroupId")
           = (resourceGroupId, None))
    (Hunresolved : snd (resolver (map_index r.(Vars) "groupType")) <> None) :
  serviceCalls (Delete r)
  = [DeleteResourceGroup_ resourceGroupId EmptyString
       (map_index r.(Header) "token") None]
  /\ ~ In StatusBadRequest (statuses (Delete r))
  /\ (statuses (Delete r) = [StatusOK]
      \/ statuses (Delete r) = [StatusInternalServerError]).
Proof.
  unfold DeleteResourceGroup. rewrite Hid.
  destruct (resolver_cases (map_index r.(Vars) "groupType"))
    as [[_ R] | [[_ R] | [_ [_ [_ R]]]]]; rewrite R in *;
    try (simpl in Hunresolved; congruence).
  destruct (resourceGroupService handler _) as [resp [e|]]; simpl;
    repeat split; auto; intros [H | []]; discriminate H.
Qed.

(** C4: when identity resolution yields user 0 or an error, each of
    CreateResourceGroup, UpdateResourceGroup and
    CheckResourceGroupPermissions writes the Unauthorized response (401) and
    does nothing else: no validation, no service call. *)
Theorem unauthorized_stops_before_service
    (r : Request)
    (Hidentity : fst (handler.(userService) r) = 0
                 \/ snd (handler.(userService) r) <> None) :
  let denied :=
    [WriteJsonResp (snd (handler.(userService) r))
       (PString "Unauthorized User") StatusUnauthorized] in
  Create r = denied /\ Update r = denied /\ Check_ r = denied
  /\ serviceCalls (Create r) = [] /\ serviceCalls (Update r) = []
  /\ serviceCalls (Check_ r) = []
  /\ statuses (Create r) = [StatusUnauthorized]
  /\ statuses (Update r) = [StatusUnauthorized]
  /\ statuses (Check_ r) = [StatusUnauthorized].
Proof.
  cbv zeta.
  unfold CreateResourceGroup, UpdateResourceGroup,
    CheckResourceGroupPermissions.
  destruct (userService handler r) as [userId err]. simpl in Hidentity.
  assert (C : (userId =? 0) || negb (isNil err) = true).
  { destruct Hidentity as [-> | H]; [reflexivity |].
    destruct err; [apply orb_true_r | congruence]. }
  rewrite C. simpl. repeat split.
Qed.

(** ** Validation *)

(** C5 (amended): UpdateResourceGroup validates at most once per request,
    and that validation sees the request after the legacy-compatibility
    normalization (acting user and resolved kind set, overrides applied); it
    happens exactly when identity, decoding and kind resolution succeed.
    CreateResourceGroup validates the decoded request (acting user set)
    first and, when that passes and the route identifier and the kind
    resolve, the normalized request again. *)
Theorem validation_points (r : Request) :
  let userId := fst (handler.(userService) r) in
  let decoded := set_UserId userId (fst (Decode r.(Body))) in
  let kind := fst (fst (resolver decoded.(GroupType))) in
  let resourceId := fst (strconv.Atoi (map_index r.(Vars) "resourceId")) in
  let updateNormalized := normalize kind (set_GroupType kind decoded) in
  let createNormalized :=
    normalize kind
      (set_GroupType kind (set_ParentResourceId resourceId decoded)) in
  (validated (Update r) = [] \/ validated (Update r) = [updateNormalized])
  /\ (userId <> 0 -> snd (handler.(userService) r) = None ->
      snd (Decode r.(Body)) = None ->
      snd (resolver decoded.(GroupType)) = None ->
      validated (Update r) = [updateNormalized])
  /\ (validated (Create r) = [] \/ validated (Create r) = [decoded]
      \/ validated (Create r) = [decoded; createNormalized])
  /\ (userId <> 0 -> snd (handler.(userService) r) = None ->
      snd (Decode r.(Body)) = None ->
      validated (Create r) <> []
      /\ hd_error (validated (Create r)) = Some decoded)
  /\ (userId <> 0 -> snd (handler.(userService) r) = None ->
      snd (Decode r.(Body)) = None ->
      handler.(validator) decoded = None ->
      snd (strconv.Atoi (map_index r.(Vars) "resourceId")) = None ->
      snd (resolver decoded.(GroupType)) = None ->
      validated (Create r) = [decoded; createNormalized]).
Proof.
  cbv zeta.
  unfold CreateResourceGroup, UpdateResourceGroup.
  destruct (userService handler r) as [userId err].
  destruct (Decode (Body r)) as [request derr].
  cbn [fst snd].
  destruct (Z.eqb_spec userId 0) as [-> | Hu];
    [simpl; repeat split; auto; intros; congruence |].
  destruct err as [e|];
    [simpl; repeat split; auto; intros; congruence |].
  destruct derr as [e|];
    [simpl; repeat split; auto; intros; congruence |].
  cbn [orb negb isNil].
  change (GroupType (set_UserId userId request)) with (GroupType request).
  destruct (resolver (GroupType request)) as [[kind authFunc] rerr].
  cbn [fst snd].
  destruct (validator handler (set_UserId userId request)) as [e|];
    destruct (strconv.Atoi (map_index (Vars r) "resourceId"))
      as [resourceId [e'|]];
    destruct rerr as [e''|]; cbn [fst snd];
    repeat match goal with
           | |- context [validator handler ?d] =>
               destruct (validator handler d)
           | |- context [resourceGroupService handler ?c] =>
               destruct (resourceGroupService handler c) as [? [?|]]
           end;
    simpl; repeat split; auto; intros; congruence.
Qed.

(** ** The strategies *)

(** C9: each strategy, called with an empty list of object identifiers,
    returns the nil map, which has no entry, and makes no call to
    EnforceInBatch; called with a non-empty list it makes exactly one call,
    on its own resource. *)
Theorem strategies_short_circuit_on_empty (token action : string) :
  appAuth token [] action = ([], nilMap)
  /\ envAuth token [] action = ([], nilMap)
  /\ GoMap_len nilMap = 0
  /\ (forall k, GoMap_lookup nilMap k = None)
  /\ (forall objs : list string, objs <> [] ->
        appAuth token objs action
        = ([mkEnforceCall token ResourceApplications action objs],
           handler.(enforcer) token ResourceApplications action objs)
        /\ envAuth token objs action
           = ([mkEnforceCall token ResourceEnvironment action objs],
              handler.(enforcer) token ResourceEnvironment action objs)).
Proof.
  repeat split; try reflexivity;
    destruct objs; try congruence; reflexivity.
Qed.

End HandlerProperties.

(** ** The dispatcher on the sample collaborators *)

Section OnSample.
Import restHandler.

Local Abbreviation sample f :=
  (f Sample.APP_GROUP Sample.ENV_GROUP Sample.ResourceApplications
     Sample.ResourceEnvironment).

(** C5, as stated, fails: the one validation of UpdateResourceGroup sees the
    request after the normalization (parent resource 7 and resources 1, 2),
    not the request as decoded (parent resource 0, no resources).  The
    sample validator, which requires a parent resource, rejects the decoded
    request and accepts the update. *)
Lemma Update_validates_after_normalization :
  set_UserId 1 (fst (Sample.Decode legacyUpdate.(Body))) = legacyDecoded
  /\ validated (sampleUpdate legacyUpdate) = [legacyNormalized]
  /\ legacyNormalized.(ParentResourceId) = 7
  /\ legacyDecoded.(ParentResourceId) = 0
  /\ legacyNormalized.(ResourceIds) = [1; 2]
  /\ legacyDecoded.(ResourceIds) = []
  /\ Sample.handler.(validator) legacyDecoded
     = Some (ExternalError "ParentResourceId: required")
  /\ Sample.handler.(validator) (set_GroupType "app-group" legacyDecoded)
     = Some (ExternalError "ParentResourceId: required")
  /\ statuses (sampleUpdate legacyUpdate) = [StatusOK].
Proof. repeat split; vm_compute; reflexivity. Qed.

(** CreateResourceGroup validates twice when the first validation passes,
    the decoded request and then the normalized one. *)
Example Create_validates_twice :
  validated (sampleCreate (Sample.request "secret" [("resourceId", "5")]
                             Sample.parentBody))
  = [mkDto 1 EmptyString 3 7 [1; 2] [] None tt;
     mkDto 1 "app-group" 7 7 [1; 2] [1; 2] None tt]
  /\ statuses (sampleCreate (Sample.request "secret" [("resourceId", "5")]
                               Sample.parentBody))
     = [StatusOK].
Proof. split; vm_compute; reflexivity. Qed.

(** On the legacy body it validates the decoded request first and stops
    there. *)
Example Create_validates_decoded_request_first :
  validated (sampleCreate (Sample.request "secret" [("resourceId", "5")]
                             Sample.legacyBody))
  = [legacyDecoded]
  /\ statuses (sampleCreate (Sample.request "secret" [("resourceId", "5")]
                               Sample.legacyBody))
     = [StatusBadRequest].
Proof. split; vm_compute; reflexivity. Qed.

(** The scenarios of section 8 of the specification, from the resolver on:
    the list request with an empty group type, and the two bodies. *)
Example scenario_list :
  serviceCalls (sampleList (Sample.request "secret" [("resourceId", "42")]
                              EmptyString))
  = [GetActiveResourceGroupList_ "secret"
       (Some (checkAppAuthBatch Sample.ResourceApplications Sample.handler))
       42 Sample.APP_GROUP]
  /\ statuses (sampleList (Sample.request "secret" [("resourceId", "42")]
                             EmptyString))
     = [StatusOK].
Proof. split; reflexivity. Qed.

Example scenario_normalization :
  backwardCompatibility Sample.APP_GROUP Sample.ENV_GROUP
    (mkDto 1 Sample.ENV_GROUP 5 7 [1; 2] [] None tt)
  = mkDto 1 Sample.ENV_GROUP 5 7 [1; 2] [] None tt
  /\ backwardCompatibility Sample.APP_GROUP Sample.APP_GROUP
       (mkDto 1 Sample.APP_GROUP 5 7 [1; 2] [] None tt)
     = mkDto 1 Sample.APP_GROUP 7 7 [1; 2] [1; 2] None tt
  /\ backwardCompatibility Sample.APP_GROUP Sample.APP_GROUP
       (mkDto 1 Sample.APP_GROUP 5 0 [] [9] None tt)
     = mkDto 1 Sample.APP_GROUP 5 0 [] [9] None tt
  /\ backwardCompatibility Sample.APP_GROUP Sample.APP_GROUP
       (mkDto 1 Sample.APP_GROUP 5 0 [3] [9] None tt)
     = mkDto 1 Sample.APP_GROUP 5 0 [3] [3] None tt
  /\ backwardCompatibility Sample.APP_GROUP Sample.APP_GROUP
       (mkDto 1 Sample.APP_GROUP 5 8 [] [9] None tt)
     = mkDto 1 Sample.APP_GROUP 8 8 [] [9] None tt.
Proof. repeat split; reflexivity. Qed.

(** C2 at the sample constants and the legacy request. *)
Lemma backwardCompatibility_projections_witness :
  Sample.ENV_GROUP <> Sample.APP_GROUP
  /\ (backwardCompatibility Sample.APP_GROUP Sample.APP_GROUP
        legacyDecoded).(ParentResourceId) = 7
  /\ backwardCompatibility Sample.APP_GROUP Sample.ENV_GROUP legacyDecoded
     = legacyDecoded.
Proof.
  assert (H : Sample.ENV_GROUP <> Sample.APP_GROUP) by discriminate.
  split; [exact H |].
  pose proof (sample (@backwardCompatibility_projections unit string)
                Sample.Decode Sample.handler legacyDecoded H) as P.
  cbv zeta in P. destruct P as [P1 [_ [_ [_ [_ [P6 _]]]]]].
  split; [apply P1; simpl; lia | exact P6].
Defined.

(** C3 at the sample collaborators: the service is called with the zero kind
    and the nil strategy, and answers 200. *)
Lemma DeleteResourceGroup_ignores_resolver_error_witness :
  strconv.Atoi (map_index bogusDelete.(Vars) "resourceGroupId") = (12, None)
  /\ snd (sample (@getGroupTypeAndAuthFunc unit string) Sample.handler
            (map_index bogusDelete.(Vars) "groupType")) <> None
  /\ serviceCalls (sampleDelete bogusDelete)
     = [DeleteResourceGroup_ 12 EmptyString
          (map_index bogusDelete.(Header) "token") None].
Proof.
  assert (H1 : strconv.Atoi (map_index bogusDelete.(Vars) "resourceGroupId")
               = (12, None)) by (vm_compute; reflexivity).
  assert (H2 : snd (sample (@getGroupTypeAndAuthFunc unit string)
                      Sample.handler
                      (map_index bogusDelete.(Vars) "groupType")) <> None)
    by (vm_compute; discriminate).
  split; [exact H1 | split; [exact H2 |]].
  apply (sample (@DeleteResourceGroup_ignores_resolver_error unit string)
           Sample.handler bogusDelete 12 H1 H2).
Defined.

Example bogusDelete_trace :
  statuses (sampleDelete bogusDelete) = [StatusOK]
  /\ map_index bogusDelete.(Header) "token" = "secret".
Proof. split; vm_compute; reflexivity. Qed.

(** C4 at the sample collaborators. *)
Lemma unauthorized_stops_before_service_witness :
  (fst (Sample.handler.(userService) anonymous) = 0
   \/ snd (Sample.handler.(userService) anonymous) <> None)
  /\ statuses (sampleCreate anonymous) = [StatusUnauthorized]
  /\ statuses (sampleUpdate anonymous) = [StatusUnauthorized]
  /\ statuses (sampleCheck anonymous) = [StatusUnauthorized]
  /\ serviceCalls (sampleCheck anonymous) = [].
Proof.
  assert (H : fst (Sample.handler.(userService) anonymous) = 0
              \/ snd (Sample.handler.(userService) anonymous) <> None)
    by (left; vm_compute; reflexivity).
  split; [exact H |].
  pose proof (sample (@unauthorized_stops_before_service unit string)
                Sample.Decode Sample.handler anonymous H) as P.
  cbv zeta in P.
  destruct P as [_ [_ [_ [_ [_ [P6 [P7 [P8 P9]]]]]]]].
  repeat split; assumption.
Defined.

End OnSample.


(** ** The statements at concrete inputs *)

Section Instances.
Import restHandler.

Local Abbreviation sample f :=
  (f Sample.APP_GROUP Sample.ENV_GROUP Sample.ResourceApplications
     Sample.ResourceEnvironment).

(** C1 at the sample collaborators: the token env-group and a token that
    does not resolve. *)
Lemma getGroupTypeAndAuthFunc_resolves_witness :
  sample (@getGroupTypeAndAuthFunc unit string) Sample.handler "env-group"
  = (Sample.ENV_GROUP,
     Some (checkEnvAuthBatch Sample.ResourceEnvironment Sample.handler), None)
  /\ sample (@getGroupTypeAndAuthFunc unit string) Sample.handler "bogus"
     = (EmptyString, None, Some (Errorf "invalid group type bogus")).
Proof.
  split.
  - apply (sample (@getGroupTypeAndAuthFunc_resolves unit string)
             Sample.Decode Sample.handler "env-group").
    reflexivity.
  - apply (sample (@getGroupTypeAndAuthFunc_resolves unit string)
             Sample.Decode Sample.handler "bogus"); discriminate.
Defined.

(** C5 (amended) at the legacy update: the one validation is that of the
    normalized request. *)
Lemma validation_points_witness :
  validated (sampleUpdate legacyUpdate)
  = [backwardCompatibility Sample.APP_GROUP Sample.APP_GROUP
       (set_GroupType Sample.APP_GROUP legacyDecoded)].
Proof.
  pose proof (sample (@validation_points unit string) Sample.Decode
                Sample.handler legacyUpdate) as P.
  cbv zeta in P. destruct P as [_ [P _]].
  apply P; [vm_compute; discriminate | reflexivity ..].
Defined.

(** C6 (amended) at the token -120. *)
Lemma roundtrip_amended_witness :
  utils.StringifyValue (VJsonNumber "-120") = ("-120", None)
  /\ utils.DestringifyValue "-120" = (VInt (-120), None)
  /\ exists e, utils.StringifyValue (VInt (-120)) = (EmptyString, Some e).
Proof.
  destruct roundtrip_amended as [_ [P _]].
  apply P; vm_compute; reflexivity.
Defined.

(** C7 (amended) at the empty object and at the sample converter. *)
Lemma IsValidJSON_object_or_null_witness :
  json.checkValid "{}" = None
  /\ utils.IsValidYAML sampleYAMLToJSON "a: 1" = true
  /\ utils.IsValidYAML sampleYAMLToJSON ("- 1" ++ newline ++ "- 2") = false.
Proof.
  destruct IsValidJSON_object_or_null as [P1 [_ [_ [_ [_ [P6 P7]]]]]].
  split; [| split].
  - apply (P1 "{}"). vm_compute. reflexivity.
  - apply P6. vm_compute. reflexivity.
  - apply P7. vm_compute. reflexivity.
Defined.

(** C8 (amended) at a text in two layers of quotes: what is returned has no
    quote left at either end. *)
Lemma DestringifyValue_never_fails_in_order_witness :
  snd (utils.DestringifyValue (quoted (quoted "x"))) = None
  /\ exists (a b : nat) (t : string),
       fst (utils.DestringifyValue (quoted (quoted "x"))) = VString t
       /\ quoted (quoted "x") = repeatByte dquote a ++ t ++ repeatByte dquote b
       /\ firstByte t <> Some dquote
       /\ lastByte t <> Some dquote.
Proof.
  destruct (DestringifyValue_never_fails_in_order (quoted (quoted "x")))
    as [P0 [_ [_ [_ P4]]]].
  split; [exact P0 |].
  apply P4; vm_compute; discriminate.
Defined.

(** C10 at a text value. *)
Lemma classification_at_nil_witness :
  exists b, utils.IsStringType (VString "a") = Returns b.
Proof.
  destruct classification_at_nil as [_ [_ [_ [_ P]]]].
  apply (P (VString "a")). discriminate.
Defined.

(** C9 at the sample collaborators: no call on the empty list, one call on
    a list of one application. *)
Lemma strategies_short_circuit_on_empty_witness :
  checkAppAuthBatch Sample.ResourceApplications Sample.handler "secret" []
    "get"
  = ([], nilMap)
  /\ fst (checkAppAuthBatch Sample.ResourceApplications Sample.handler
            "secret" ["app-1"] "get")
     = [mkEnforceCall "secret" Sample.ResourceApplications "get" ["app-1"]].
Proof.
  destruct (@strategies_short_circuit_on_empty unit string
              Sample.ResourceApplications Sample.ResourceEnvironment
              Sample.handler "secret" "get") as [P1 [_ [_ [_ P5]]]].
  split; [exact P1 |].
  destruct (P5 ["app-1"]) as [Q _]; [discriminate |].
  rewrite Q. reflexivity.
Defined.

End Instances.

(** * Further properties *)

(** ** The dispatcher, path by path *)

Section DispatcherPaths.
Import restHandler.

Context {Rest Resp : Type}.
Variables APP_GROUP ENV_GROUP : ResourceGroupType.
Variables ResourceApplications ResourceEnvironment : string.
Variable Decode : string -> @ResourceGroupDto Rest * option error.
Variable handler : @ResourceGroupRestHandlerImpl Rest Resp.

Local Abbreviation resolver :=
  (getGroupTypeAndAuthFunc APP_GROUP ENV_GROUP ResourceApplications
     ResourceEnvironment handler).
Local Abbreviation appAuth := (checkAppAuthBatch ResourceApplications handler).
Local Abbreviation envAuth := (checkEnvAuthBatch ResourceEnvironment handler).
Local Abbreviation List_ :=
  (GetActiveResourceGroupList APP_GROUP ENV_GROUP ResourceApplications
     ResourceEnvironment handler).
Local Abbreviation Create :=
  (CreateResourceGroup APP_GROUP ENV_GROUP ResourceApplications
     ResourceEnvironment Decode handler).
Local Abbreviation Update :=
  (UpdateResourceGroup APP_GROUP ENV_GROUP ResourceApplications
     ResourceEnvironment Decode handler).
Local Abbreviation Delete :=
  (DeleteResourceGroup APP_GROUP ENV_GROUP ResourceApplications
     ResourceEnvironment handler).
Local Abbreviation Check_ :=
  (CheckResourceGroupPermissions APP_GROUP ENV_GROUP ResourceApplications
     ResourceEnvironment Decode handler).
Local Abbreviation normalize := (backwardCompatibility APP_GROUP).
Local Abbreviation service := (handler.(resourceGroupService)).

Ltac path_cases :=
  repeat match goal with
         | |- context [match ?x with _ => _ end] =>
             lazymatch x with
             | context [match _ with _ => _ end] => fail
             | _ => destruct x eqn:?
             end
         end.

Lemma resolver_nil_error (t : string) (k : ResourceGroupType)
    (a : option AuthFunc) :
  resolver t = (k, a, None) ->
  (k, a) = (APP_GROUP, Some appAuth) \/ (k, a) = (ENV_GROUP, Some envAuth).
Proof.
  intros H.
  destruct (resolver_cases APP_GROUP ENV_GROUP ResourceApplications
              ResourceEnvironment handler t)
    as [[_ R] | [[_ R] | [_ [_ [_ R]]]]]; rewrite R in H;
    inversion H; auto.
Qed.

(** X1: every handler writes exactly one response, as its last event, and
    the status is one of 200, 400 and 500 for list and delete and one of
    200, 400, 401 and 500 for create, update and permission check. *)
Theorem handlers_respond_once (r : Request) :
  (exists e p s, finalResponse (List_ r) = Some (e, p, s)
                 /\ statuses (List_ r) = [s]
                 /\ In s [StatusOK; StatusBadRequest;
                          StatusInternalServerError])
  /\ (exists e p s, finalResponse (Delete r) = Some (e, p, s)
                    /\ statuses (Delete r) = [s]
                    /\ In s [StatusOK; StatusBadRequest;
                             StatusInternalServerError])
  /\ (exists e p s, finalResponse (Create r) = Some (e, p, s)
                    /\ statuses (Create r) = [s]
                    /\ In s [StatusOK; StatusBadRequest; StatusUnauthorized;
                             StatusInternalServerError])
  /\ (exists e p s, finalResponse (Update r) = Some (e, p, s)
                    /\ statuses (Update r) = [s]
                    /\ In s [StatusOK; StatusBadRequest; StatusUnauthorized;
                             StatusInternalServerError])
  /\ (exists e p s, finalResponse (Check_ r) = Some (e, p, s)
                    /\ statuses (Check_ r) = [s]
                    /\ In s [StatusOK; StatusBadRequest; StatusUnauthorized;
                             StatusInternalServerError]).
Proof.
  unfold GetActiveResourceGroupList, DeleteResourceGroup,
    CreateResourceGroup, UpdateResourceGroup, CheckResourceGroupPermissions.
  repeat apply conj; path_cases; simpl;
    do 3 eexists; (split; [reflexivity | split; [reflexivity | simpl; auto 6]]).
Qed.

(** X2: every handler calls the service at most once.  When it does not,
    the status is 400 (or 401 for create, update and permission check); when
    it does, the response is the outcome of that call: the service's result
    with 200, or its error with 500, beside which UpdateResourceGroup alone
    also writes the result. *)
Theorem service_outcome_is_the_response (r : Request) :
  ((serviceCalls (List_ r) = [] /\ statuses (List_ r) = [StatusBadRequest])
   \/ exists call, serviceCalls (List_ r) = [call]
        /\ finalResponse (List_ r) = Some (serviceOutcome false (service call)))
  /\ ((serviceCalls (Delete r) = [] /\ statuses (Delete r) = [StatusBadRequest])
      \/ exists call, serviceCalls (Delete r) = [call]
           /\ finalResponse (Delete r)
              = Some (serviceOutcome false (service call)))
  /\ ((serviceCalls (Create r) = []
       /\ (statuses (Create r) = [StatusBadRequest]
           \/ statuses (Create r) = [StatusUnauthorized]))
      \/ exists call, serviceCalls (Create r) = [call]
           /\ finalResponse (Create r)
              = Some (serviceOutcome false (service call)))
  /\ ((serviceCalls (Update r) = []
       /\ (statuses (Update r) = [StatusBadRequest]
           \/ statuses (Update r) = [StatusUnauthorized]))
      \/ exists call, serviceCalls (Update r) = [call]
           /\ finalResponse (Update r)
              = Some (serviceOutcome true (service call)))
  /\ ((serviceCalls (Check_ r) = []
       /\ (statuses (Check_ r) = [StatusBadRequest]
           \/ statuses (Check_ r) = [StatusUnauthorized]))
      \/ exists call, serviceCalls (Check_ r) = [call]
           /\ finalResponse (Check_ r)
              = Some (serviceOutcome false (service call))).
Proof.
  unfold GetActiveResourceGroupList, DeleteResourceGroup,
    CreateResourceGroup, UpdateResourceGroup, CheckResourceGroupPermissions.
  repeat apply conj; path_cases; simpl;
    first
      [ left; split; [reflexivity | auto]
      | right; eexists; split; [reflexivity |];
        match goal with
        | H : resourceGroupService handler _ = _ |- _ => rewrite H
        end; reflexivity ].
Qed.

(** X3: GetActiveResourceGroupList answers 400 without calling the service
    when the route's resourceId is no integer, in particular when the route
    has no such variable, and when the group type does not resolve (the
    check that DeleteResourceGroup leaves out); a route without a groupType
    variable is served as an application group. *)
Theorem list_route_variables (r : Request) :
  (forall e, snd (strconv.Atoi (map_index r.(Vars) "resourceId")) = Some e ->
     List_ r = [WriteJsonResp (Some e) PNil StatusBadRequest])
  /\ (r.(Vars) !! "resourceId" = None ->
      List_ r = [WriteJsonResp (Some (syntaxError "Atoi" EmptyString)) PNil
                   StatusBadRequest])
  /\ (snd (strconv.Atoi (map_index r.(Vars) "resourceId")) = None ->
      forall e, snd (resolver (map_index r.(Vars) "groupType")) = Some e ->
        e = Errorf ("invalid group type " ++ map_index r.(Vars) "groupType")
        /\ List_ r = [WriteJsonResp (Some e) PNil StatusBadRequest])
  /\ (snd (strconv.Atoi (map_index r.(Vars) "resourceId")) = None ->
      r.(Vars) !! "groupType" = None ->
      serviceCalls (List_ r)
      = [GetActiveResourceGroupList_ (map_index r.(Header) "token")
           (Some appAuth)
           (fst (strconv.Atoi (map_index r.(Vars) "resourceId")))
           APP_GROUP]).
Proof.
  unfold GetActiveResourceGroupList. repeat apply conj.
  - intros e H. destruct (strconv.Atoi _) as [n [e'|]]; simpl in H;
      [congruence | discriminate].
  - intros H. unfold map_index. rewrite H. reflexivity.
  - intros H e He. destruct (strconv.Atoi _) as [n [e'|]]; simpl in H;
      [discriminate |].
    destruct (resolver_cases APP_GROUP ENV_GROUP ResourceApplications
                ResourceEnvironment handler (map_index r.(Vars) "groupType"))
      as [[_ R] | [[_ R] | [_ [_ [_ R]]]]]; rewrite R in He |- *;
      simpl in He; try discriminate.
    injection He as <-. auto.
  - intros H Hk. destruct (strconv.Atoi _) as [n [e'|]]; simpl in H;
      [discriminate |].
    unfold map_index at 1. rewrite Hk. simpl.
    destruct (resourceGroupService handler _) as [res [e|]]; reflexivity.
Qed.

(** X4: in every handler but DeleteResourceGroup the service is only called
    after the group type has resolved: the call carries APP_GROUP with the
    application-scoped strategy or ENV_GROUP with the environment-scoped
    one, never a nil strategy and never a kind with the other kind's
    strategy. *)
Theorem service_gets_matching_strategy (r : Request) (call : ServiceCall)
    (Hcall : In call (serviceCalls (List_ r))
             \/ In call (serviceCalls (Create r))
             \/ In call (serviceCalls (Update r))
             \/ In call (serviceCalls (Check_ r))) :
  callKind call = (APP_GROUP, Some appAuth)
  \/ callKind call = (ENV_GROUP, Some envAuth).
Proof.
  destruct Hcall as [H | [H | [H | H]]]; revert H;
    unfold GetActiveResourceGroupList, CreateResourceGroup,
      UpdateResourceGroup, CheckResourceGroupPermissions;
    path_cases; simpl; intros H; try contradiction;
    destruct H as [<- | []]; simpl;
    rewrite ?(proj1 (normalize_keeps_kind _ _ _)); simpl;
    match goal with
    | H : resolver _ = (_, _, None) |- _ =>
        apply resolver_nil_error in H; destruct H as [H | H];
        injection H as -> ->; auto
    end.
Qed.

(** X5: for an identified user, a body that does not decode ends create,
    update and permission check with 400 and the decoder's error, after one
    log entry and before any validation or service call. *)
Theorem decode_failure_is_bad_request (r : Request) (e : error)
    (Huser : fst (handler.(userService) r) <> 0)
    (Hnil : snd (handler.(userService) r) = None)
    (Hdecode : snd (Decode r.(Body)) = Some e) :
  Create r = [Log "error" "request err, CreateResourceGroup";
              WriteJsonResp (Some e) PNil StatusBadRequest]
  /\ Update r = [Log "error" "request err, UpdateResourceGroup";
                 WriteJsonResp (Some e) PNil StatusBadRequest]
  /\ Check_ r = [Log "error" "request err, CreateResourceGroup";
                 WriteJsonResp (Some e) PNil StatusBadRequest].
Proof.
  unfold CreateResourceGroup, UpdateResourceGroup,
    CheckResourceGroupPermissions.
  destruct (userService handler r) as [userId err]. simpl in Huser, Hnil.
  subst err. apply Z.eqb_neq in Huser. rewrite Huser.
  destruct (Decode (Body r)) as [d derr]. simpl in Hdecode. subst derr.
  repeat split.
Qed.

Lemma normalize_keeps_user (k : ResourceGroupType)
    (d : @ResourceGroupDto Rest) :
  (normalize k d).(UserId) = d.(UserId).
Proof.
  unfold backwardCompatibility.
  destruct (String.eqb k APP_GROUP); [| reflexivity].
  destruct (0 <? d.(EnvironmentId)); simpl;
    destruct (0 <? Z.of_nat (List.length d.(AppIds))); reflexivity.
Qed.

(** X6: the request that CreateResourceGroup or UpdateResourceGroup hands to
    the service is one the validator has just accepted, with nothing changed
    but the attached strategy. *)
Theorem service_request_was_validated (r : Request)
    (req : ResourceGroupDto) (tok : string) :
  (In (CreateResourceGroup_ req tok) (serviceCalls (Create r)) ->
   exists d : ResourceGroupDto,
     List.last (validated (Create r)) req = d
     /\ In d (validated (Create r))
     /\ handler.(validator) d = None
     /\ req = set_CheckAuthBatch req.(CheckAuthBatch) d)
  /\ (In (UpdateResourceGroup_ req tok) (serviceCalls (Update r)) ->
      exists d : ResourceGroupDto,
        validated (Update r) = [d]
        /\ handler.(validator) d = None
        /\ req = set_CheckAuthBatch req.(CheckAuthBatch) d).
Proof.
  split;
    unfold CreateResourceGroup, UpdateResourceGroup;
    path_cases; simpl; intros H; try contradiction;
    destruct H as [[= <- <-] | []];
    eexists; repeat split; simpl; eauto.
Qed.

(** X7: the request that create, update or permission check hands to the
    service names the user the user service identified, who is not user 0;
    whatever user the body names is overwritten. *)
Theorem service_request_names_the_user (r : Request) (call : ServiceCall)
    (req : ResourceGroupDto)
    (Hcall : In call (serviceCalls (Create r))
             \/ In call (serviceCalls (Update r))
             \/ In call (serviceCalls (Check_ r)))
    (Hreq : callRequest call = Some req) :
  req.(UserId) = fst (handler.(userService) r)
  /\ req.(UserId) <> 0
  /\ snd (handler.(userService) r) = None.
Proof.
  destruct Hcall as [H | [H | H]]; revert H;
    unfold CreateResourceGroup, UpdateResourceGroup,
      CheckResourceGroupPermissions;
    destruct (userService handler r) as [userId [e|]]; simpl;
    destruct (Z.eqb_spec userId 0); simpl; try contradiction;
    path_cases; simpl; intros H; try contradiction;
    destruct H as [<- | []]; simpl in Hreq; injection Hreq as <-;
    simpl; rewrite normalize_keeps_user; simpl; auto.
Qed.

(** X8: list, delete and permission check never call the validator. *)
Theorem no_validation_outside_create_and_update (r : Request) :
  validated (List_ r) = [] /\ validated (Delete r) = []
  /\ validated (Check_ r) = [].
Proof.
  unfold GetActiveResourceGroupList, DeleteResourceGroup,
    CheckResourceGroupPermissions.
  repeat apply conj; path_cases; reflexivity.
Qed.

(** X9: every service call of every handler carries the request's token
    header as it came, the empty text when the header is missing. *)
Theorem token_is_forwarded (r : Request) (call : ServiceCall)
    (Hcall : In call (serviceCalls (List_ r))
             \/ In call (serviceCalls (Delete r))
             \/ In call (serviceCalls (Create r))
             \/ In call (serviceCalls (Update r))
             \/ In call (serviceCalls (Check_ r))) :
  callToken call = default EmptyString (r.(Header) !! "token").
Proof.
  destruct Hcall as [H | [H | [H | [H | H]]]]; revert H;
    unfold GetActiveResourceGroupList, DeleteResourceGroup,
      CreateResourceGroup, UpdateResourceGroup,
      CheckResourceGroupPermissions;
    path_cases; simpl; intros H; try contradiction;
    destruct H as [<- | []]; reflexivity.
Qed.

(** X10: DeleteResourceGroup answers 400 with the parse error and the empty
    text as payload, without log entry or service call, when the route's
    resourceGroupId is no integer, in particular when the route has no such
    variable; with the identifier parsed, a route without a groupType
    variable deletes as an application group. *)
Theorem delete_route_variables (r : Request) :
  (forall e,
     snd (strconv.Atoi (map_index r.(Vars) "resourceGroupId")) = Some e ->
     Delete r = [WriteJsonResp (Some e) (PString EmptyString)
                   StatusBadRequest])
  /\ (r.(Vars) !! "resourceGroupId" = None ->
      Delete r = [WriteJsonResp (Some (syntaxError "Atoi" EmptyString))
                    (PString EmptyString) StatusBadRequest])
  /\ (snd (strconv.Atoi (map_index r.(Vars) "resourceGroupId")) = None ->
      r.(Vars) !! "groupType" = None ->
      serviceCalls (Delete r)
      = [DeleteResourceGroup_
           (fst (strconv.Atoi (map_index r.(Vars) "resourceGroupId")))
           APP_GROUP (map_index r.(Header) "token") (Some appAuth)]).
Proof.
  unfold DeleteResourceGroup. repeat apply conj.
  - intros e H. destruct (strconv.Atoi _) as [n [e'|]]; simpl in H;
      [congruence | discriminate].
  - intros H. unfold map_index. rewrite H. reflexivity.
  - intros H Hk. destruct (strconv.Atoi _) as [n [e'|]]; simpl in H;
      [discriminate |].
    unfold map_index at 1. rewrite Hk. simpl.
    destruct (resourceGroupService handler _) as [res [e|]]; reflexivity.
Qed.

(** X11: the resolver returns a strategy exactly when it returns no error.
    Without error the result is APP_GROUP with the application-scoped
    strategy or ENV_GROUP with the environment-scoped one; with an error the
    kind is the empty one and the error names the token. *)
Theorem resolver_strategy_iff_no_error (groupType : string) :
  (snd (resolver groupType) = None <-> snd (fst (resolver groupType)) <> None)
  /\ (snd (resolver groupType) = None ->
      fst (resolver groupType) = (APP_GROUP, Some appAuth)
      \/ fst (resolver groupType) = (ENV_GROUP, Some envAuth))
  /\ (snd (resolver groupType) <> None ->
      resolver groupType
      = (EmptyString, None,
         Some (Errorf ("invalid group type " ++ groupType)))).
Proof.
  destruct (resolver_cases APP_GROUP ENV_GROUP ResourceApplications
              ResourceEnvironment handler groupType)
    as [[_ R] | [[_ R] | [_ [_ [_ R]]]]]; rewrite R; simpl;
    repeat split; auto; try congruence; try discriminate;
    intros H; exfalso; apply H; reflexivity.
Qed.

(** X12: the legacy-compatibility normalization is idempotent, for every
    kind: applying it again to a normalized request changes nothing. *)
Theorem backwardCompatibility_idempotent (k : ResourceGroupType)
    (d : @ResourceGroupDto Rest) :
  normalize k (normalize k d) = normalize k d.
Proof.
  unfold backwardCompatibility.
  destruct (String.eqb k APP_GROUP); [| reflexivity].
  destruct d as [u g p e a rs c o]; simpl.
  destruct (Z.ltb_spec 0 e) as [He | He]; simpl;
    destruct a as [|x a]; simpl;
    rewrite ?(proj2 (Z.ltb_lt 0 e) He); simpl;
    try reflexivity;
    destruct (Z.ltb_spec 0 e); try lia; reflexivity.
Qed.

Lemma normalize_parent (k : ResourceGroupType)
    (d : @ResourceGroupDto Rest) :
  (normalize k d).(ParentResourceId)
  = if String.eqb k APP_GROUP && (0 <? d.(EnvironmentId))
    then d.(EnvironmentId) else d.(ParentResourceId).
Proof.
  unfold backwardCompatibility.
  destruct (String.eqb k APP_GROUP); [| reflexivity].
  destruct (0 <? d.(EnvironmentId)); simpl;
    destruct (0 <? Z.of_nat (List.length d.(AppIds))); reflexivity.
Qed.

(** X22: where the parent resource of a delivered request comes from.  When
    the kind is APP_GROUP and the body's environmentId is positive, it is
    that environmentId; otherwise CreateResourceGroup and
    CheckResourceGroupPermissions take the route's resourceId, whatever
    parent the body names, and UpdateResourceGroup, which reads no route
    variable, keeps the parent of the body. *)
Theorem parent_resource_source (r : Request) (req : ResourceGroupDto)
    (tok : string) :
  let decoded := fst (Decode r.(Body)) in
  let routeId := fst (strconv.Atoi (map_index r.(Vars) "resourceId")) in
  let legacy :=
    String.eqb req.(GroupType) APP_GROUP && (0 <? decoded.(EnvironmentId)) in
  (In (CreateResourceGroup_ req tok) (serviceCalls (Create r)) ->
   req.(ParentResourceId)
   = if legacy then decoded.(EnvironmentId) else routeId)
  /\ (In (CheckResourceGroupPermissions_ req tok) (serviceCalls (Check_ r)) ->
      req.(ParentResourceId)
      = if legacy then decoded.(EnvironmentId) else routeId)
  /\ (In (UpdateResourceGroup_ req tok) (serviceCalls (Update r)) ->
      req.(ParentResourceId)
      = if legacy then decoded.(EnvironmentId)
        else decoded.(ParentResourceId)).
Proof.
  cbv zeta.
  repeat apply conj; intros H;
    match goal with |- _ = ?rhs => remember rhs as R eqn:ER end;
    revert H;
    unfold CreateResourceGroup, UpdateResourceGroup,
      CheckResourceGroupPermissions;
    path_cases; simpl; intros H; try contradiction;
    destruct H as [[= <- <-] | []]; subst R; simpl;
    rewrite normalize_parent, (proj1 (normalize_keeps_kind _ _ _)); simpl;
    repeat match goal with
           | H : ?l = (_, _) |- context [?l] => rewrite H
           end;
    reflexivity.
Qed.

(** X23: what the handlers log.  In every handler a 500 response follows
    exactly one error entry, a 200 response follows none, a 401 response
    follows no log entry at all, and an error entry is only followed by a
    400 or a 500. *)
Theorem error_log_and_status (r : Request) :
  logMatchesStatus (List_ r) /\ logMatchesStatus (Delete r)
  /\ logMatchesStatus (Create r) /\ logMatchesStatus (Update r)
  /\ logMatchesStatus (Check_ r).
Proof.
  unfold logMatchesStatus, GetActiveResourceGroupList, DeleteResourceGroup,
    CreateResourceGroup, UpdateResourceGroup, CheckResourceGroupPermissions.
  repeat apply conj; path_cases; simpl;
    unfold StatusOK, StatusBadRequest, StatusUnauthorized,
      StatusInternalServerError;
    intros; try reflexivity;
    intuition (try discriminate; try congruence; auto).
Qed.

End DispatcherPaths.

(** ** The type-coercion helper, case by case *)

Lemma isValidNumber_nonempty (tok : string) :
  json.isValidNumber tok = true -> tok <> EmptyString.
Proof. intros H ->. discriminate H. Qed.

Lemma StringifyValue_valid_number (tok : string) :
  json.isValidNumber tok = true ->
  utils.StringifyValue (VJsonNumber tok) = (tok, None).
Proof.
  intros V. unfold utils.StringifyValue, json.MarshalNumber.
  destruct (String.eqb_spec tok EmptyString) as [-> | N];
    [discriminate V | rewrite V; reflexivity].
Qed.

(** X13: StringifyValue never reports an error for a json.Number.  A token
    that is a JSON number is returned as it is and the empty token as 0; for
    any other token the error of json.Marshal is dropped and the empty text
    is returned. *)
Theorem StringifyValue_number_drops_error (tok : string) :
  snd (utils.StringifyValue (VJsonNumber tok)) = None
  /\ (json.isValidNumber tok = true ->
      fst (utils.StringifyValue (VJsonNumber tok)) = tok)
  /\ (tok = EmptyString ->
      fst (utils.StringifyValue (VJsonNumber tok)) = "0")
  /\ (tok <> EmptyString -> json.isValidNumber tok = false ->
      fst (utils.StringifyValue (VJsonNumber tok)) = EmptyString).
Proof.
  unfold utils.StringifyValue, json.MarshalNumber.
  destruct (String.eqb_spec tok EmptyString) as [-> | N].
  - repeat split; try reflexivity; try discriminate. congruence.
  - destruct (json.isValidNumber tok); simpl; repeat split; congruence.
Qed.

Lemma length_of_append (s t : string) :
  String.length (s ++ t) = (String.length s + String.length t)%nat.
Proof. induction s as [|a s IH]; simpl; [reflexivity | now rewrite IH]. Qed.

Lemma append_inv_tail (s t u : string) : s ++ u = t ++ u -> s = t.
Proof.
  revert t. induction s as [|a s IH]; intros [|b t] H; simpl in H.
  - reflexivity.
  - exfalso. apply (f_equal String.length) in H.
    simpl in H. rewrite length_of_append in H. lia.
  - exfalso. apply (f_equal String.length) in H.
    simpl in H. rewrite length_of_append in H. lia.
  - injection H as -> H. f_equal. apply IH, H.
Qed.

Lemma isValidNumber_first_byte (c : ascii) (rest : string) :
  json.isValidNumber (String c rest) = true ->
  Ascii.eqb c "-" = true \/ isDigit c = true.
Proof.
  unfold json.isValidNumber.
  destruct (Ascii.eqb c "-") eqn:M; [auto |].
  destruct (Ascii.eqb c "0") eqn:Z0.
  - apply Ascii.eqb_eq in Z0. subst c. auto.
  - unfold isDigit.
    destruct ((byte_of "1" <=? byte_of c) && (byte_of c <=? byte_of "9"))
      eqn:D; [| discriminate].
    intros _. right. apply andb_true_iff in D. destruct D as [D1 D2].
    apply andb_true_iff. split; [| exact D2].
    apply Z.leb_le in D1. apply Z.leb_le.
    change (byte_of "0") with 48. change (byte_of "1") with 49 in D1. lia.
Qed.

(** X14: StringifyValue tells apart the values it is meant for: two values
    among the texts, the booleans and the number tokens that are JSON
    numbers have the same stringification only when they are the same
    value. *)
Theorem StringifyValue_injective (v w : GoValue)
    (Hv : stringifiable v = true) (Hw : stringifiable w = true)
    (Heq : fst (utils.StringifyValue v) = fst (utils.StringifyValue w)) :
  v = w.
Proof.
  assert (N : forall tok, json.isValidNumber tok = true ->
                fst (utils.StringifyValue (VJsonNumber tok)) = tok)
    by (intros tok V; rewrite (StringifyValue_valid_number tok V);
        reflexivity).
  assert (Q : forall s tok, json.isValidNumber tok = true ->
                quoted s <> tok).
  { intros s tok V <-. discriminate V. }
  assert (B : forall b tok, json.isValidNumber tok = true ->
                strconv.FormatBool b <> tok).
  { intros [] tok V <-; discriminate V. }
  destruct v as [| tv | sv | bv | | |], w as [| tw | sw | bw | | |];
    simpl in Hv, Hw; try discriminate;
    rewrite ?N in Heq by assumption.
  - congruence.
  - symmetry in Heq. apply Q in Heq; [contradiction | assumption].
  - symmetry in Heq. apply B in Heq; [contradiction | assumption].
  - apply Q in Heq; [contradiction | assumption].
  - simpl in Heq. injection Heq as Heq. apply append_inv_tail in Heq.
    congruence.
  - destruct bw; discriminate Heq.
  - apply B in Heq; [contradiction | assumption].
  - destruct bv; discriminate Heq.
  - destruct bv, bw; simpl in Heq; congruence.
Qed.

(** X15: whatever the text, the value DestringifyValue returns is an int, a
    float64, a bool or a string: it is never nil, so IsStringType does not
    panic on it, and exactly one of IsPrimitiveType and IsStringType holds
    of it. *)
Theorem DestringifyValue_is_primitive_or_text (Data : string) :
  fst (utils.DestringifyValue Data) <> VNil
  /\ ((utils.IsPrimitiveType (fst (utils.DestringifyValue Data)) = true
       /\ utils.IsStringType (fst (utils.DestringifyValue Data))
          = Returns false)
      \/ (utils.IsPrimitiveType (fst (utils.DestringifyValue Data)) = false
          /\ utils.IsStringType (fst (utils.DestringifyValue Data))
             = Returns true)).
Proof.
  unfold utils.DestringifyValue.
  destruct (strconv.Atoi Data) as [n [e1|]];
    destruct (strconv.ParseFloat Data) as [f [e2|]];
    destruct (strconv.ParseBool Data) as [b [e3|]]; simpl;
    split; try discriminate; auto.
Qed.

(** X16: a value that is primitive is not a string and conversely, for every
    value on which both classifications return; a json.Number counts as a
    string, not as a number. *)
Theorem primitive_and_string_exclude_each_other (v : GoValue)
    (Hprimitive : utils.IsPrimitiveType v = true) :
  utils.IsStringType v = Returns false.
Proof.
  destruct v as [| | | | | | k]; try discriminate; try reflexivity.
  destruct k; try discriminate; reflexivity.
Qed.

Ltac each_byte c :=
  destruct c as [[] [] [] [] [] [] [] []].

Lemma Atoi_first_byte (c : ascii) (rest : string) :
  beginsNumberOrBoolean c = false ->
  exists n e, strconv.Atoi (String c rest) = (n, Some e).
Proof.
  intros H. unfold strconv.Atoi.
  destruct ((0 <? Z.of_nat (String.length (String c rest)))
            && (Z.of_nat (String.length (String c rest)) <? 19));
    each_byte c; try discriminate H; cbn; eauto.
Qed.

Lemma readFloat_first_byte (c : ascii) (rest : string) :
  beginsNumberOrBoolean c = false ->
  strconv.readFloat (String c rest) = None
  /\ strconv.special (String c rest) = None.
Proof.
  intros H.
  each_byte c; try discriminate H;
    (split; [destruct rest as [|a [|b rest]]; reflexivity | reflexivity]).
Qed.

Lemma ParseBool_first_byte (c : ascii) (rest : string) :
  beginsNumberOrBoolean c = false ->
  exists b e, strconv.ParseBool (String c rest) = (b, Some e).
Proof.
  intros H. unfold strconv.ParseBool.
  each_byte c; try discriminate H; cbn; eauto.
Qed.

(** X17: a text whose first byte cannot begin a number or a boolean (not a
    digit, a sign, a dot, an underscore or one of i, n, t, f in either case)
    is returned as text, without its leading and trailing double quotes;
    strconv trims no white space, so a number after a blank stays text. *)
Theorem DestringifyValue_text_by_first_byte (c : ascii) (rest : string)
    (Hfirst : beginsNumberOrBoolean c = false) :
  utils.DestringifyValue (String c rest)
  = (VString (strings.Trim (String c rest) dquote), None).
Proof.
  unfold utils.DestringifyValue.
  destruct (Atoi_first_byte c rest Hfirst) as [n [e ->]].
  destruct (readFloat_first_byte c rest Hfirst) as [R S].
  unfold strconv.ParseFloat, strconv.atof64. rewrite S, R. cbn.
  destruct (ParseBool_first_byte c rest Hfirst) as [b [e' ->]].
  reflexivity.
Qed.

(** X18: DestringifyValue returns a boolean exactly for the ten letter
    spellings of strconv.ParseBool; the digits 1 and 0, which ParseBool
    accepts too, are integers because the integer parse comes first. *)
Theorem DestringifyValue_boolean_words (Data : string) (b : bool) :
  utils.DestringifyValue Data = (VBool b, None) <-> In (Data, b) booleanWords.
Proof.
  split.
  - unfold utils.DestringifyValue.
    destruct (strconv.Atoi Data) as [n [e1|]] eqn:A; [| discriminate].
    destruct (strconv.ParseFloat Data) as [f [e2|]]; [| discriminate].
    unfold strconv.ParseBool.
    repeat match goal with
           | |- context [String.eqb Data ?w] =>
               destruct (String.eqb_spec Data w) as [-> | ?];
               [ cbn; try (vm_compute in A; discriminate A);
                 intros [= <-]; simpl; tauto | ]
           end.
    cbn. discriminate.
  - unfold booleanWords. simpl.
    intros H.
    repeat (destruct H as [[= <- <-] | H]; [vm_compute; reflexivity |]).
    contradiction.
Qed.

(** X19: a text value without a double quote at either end survives the
    round trip in the other direction too: DestringifyValue of the quoted
    text returns the text, and StringifyValue of that returns the quoted
    text again. *)
Theorem quoted_text_roundtrip (t : string)
    (Hfirst : firstByte t <> Some dquote)
    (Hlast : lastByte t <> Some dquote) :
  utils.DestringifyValue (quoted t) = (VString t, None)
  /\ utils.StringifyValue (fst (utils.DestringifyValue (quoted t)))
     = (quoted t, None).
Proof.
  assert (D : utils.DestringifyValue (quoted t) = (VString t, None)).
  { unfold quoted. simpl. rewrite DestringifyValue_quoted.
    change (String dquote (t ++ String dquote EmptyString))
      with (String dquote EmptyString ++ t ++ String dquote EmptyString).
    rewrite Trim_wrapped, Trim_id by assumption. reflexivity. }
  split; [exact D | rewrite D; reflexivity].
Qed.

(** ** IsValidJSON on white space *)

Lemma checkValid_blank (s : string) :
  forall sc : json.scanner,
    json.step sc = json.stBeginValue -> json.endTop sc = false ->
    json.err sc = None -> allSpaces s = true ->
    json.checkValidLoop s sc <> None.
Proof.
  induction s as [|c s IH]; intros sc Hs Ht He Ha.
  - simpl. unfold json.eof. rewrite He, Ht.
    unfold json.runStep. rewrite Hs. simpl. rewrite Ht, He. discriminate.
  - simpl in Ha. apply andb_true_iff in Ha. destruct Ha as [Hc Ha].
    simpl. unfold json.runStep. simpl. rewrite Hs.
    unfold json.stateBeginValue. rewrite Hc.
    apply IH; auto.
Qed.

(** X20: IsValidJSON rejects the empty text and every text of white space
    only. *)
Theorem IsValidJSON_rejects_blank (s : string)
    (Hblank : allSpaces s = true) :
  utils.IsValidJSON s = false.
Proof.
  unfold utils.IsValidJSON, json.Unmarshal, json.checkValid.
  destruct (json.checkValidLoop s json.reset) eqn:C; [reflexivity |].
  exfalso. revert C. apply checkValid_blank; auto.
Qed.

Lemma runStep_sameScan (a b : json.scanner) (c : ascii) :
  sameScan a b ->
  sameScan (fst (json.runStep a c)) (fst (json.runStep b c))
  /\ snd (json.runStep a c) = snd (json.runStep b c).
Proof.
  destruct a as [sa ta pa ea ba], b as [sb tb pb eb bb].
  unfold sameScan. simpl. intros (-> & -> & -> & E).
  unfold json.runStep; simpl; destruct sb;
    unfold json.stateBeginValueOrEmpty, json.stateBeginStringOrEmpty,
      json.stateBeginValue, json.stateBeginString, json.stateEndValue,
      json.stateEndTop, json.stateInString, json.stateInStringEsc,
      json.stateInStringEscHex, json.stateNeg, json.state1, json.state0,
      json.stateDot, json.stateDot0, json.stateE, json.stateESign,
      json.stateE0, json.stateLit, json.stateEndValue, json.stateEndTop,
      json.pushParseState, json.popParseState, json.scanErr, json.setTop,
      json.setStep; simpl;
    repeat match goal with
           | |- context [if ?x then _ else _] => destruct x; simpl
           | |- context [match ?x with _ => _ end] =>
               is_var x; destruct x; simpl
           end; auto.
Qed.

Lemma checkValidLoop_sameScan (s : string) :
  forall a b : json.scanner,
    sameScan a b ->
    isNil (json.checkValidLoop s a) = isNil (json.checkValidLoop s b).
Proof.
  induction s as [|c s IH]; intros a b S.
  - simpl. unfold json.eof.
    destruct (runStep_sameScan a b " " S) as [(_ & T & _ & E) _].
    destruct S as (_ & St & _ & Se).
    destruct (json.err a), (json.err b); try discriminate Se;
      [reflexivity |].
    rewrite St. destruct (json.endTop b); [reflexivity |].
    rewrite T. destruct (json.endTop (fst (json.runStep b " ")));
      [reflexivity |].
    destruct (json.err (fst (json.runStep a " "))),
      (json.err (fst (json.runStep b " "))); reflexivity.
  - simpl.
    assert (Sb : sameScan (json.bump a) (json.bump b))
      by (destruct S as (? & ? & ? & ?); repeat split; assumption).
    destruct (runStep_sameScan _ _ c Sb) as [S' O].
    destruct (json.runStep (json.bump a) c) as [a' oa],
      (json.runStep (json.bump b) c) as [b' ob].
    simpl in S', O. subst ob.
    destruct oa; try (apply IH; exact S').
    apply S'.
Qed.

Lemma IsValidJSON_leading_space (c : ascii) (s : string) :
  json.isSpace c = true ->
  utils.IsValidJSON (String c s) = utils.IsValidJSON s.
Proof.
  intros Hc.
  assert (V : isNil (json.checkValid (String c s))
              = isNil (json.checkValid s)).
  { unfold json.checkValid. simpl. unfold json.runStep. simpl.
    unfold json.stateBeginValue. rewrite Hc.
    apply checkValidLoop_sameScan. repeat split. }
  assert (T : json.topLevel (String c s) = json.topLevel s)
    by (unfold json.topLevel; simpl; rewrite Hc; reflexivity).
  assert (N : json.numberLiterals (String c s) json.reset EmptyString
              = json.numberLiterals s json.reset EmptyString).
  { simpl. unfold json.runStep. simpl. unfold json.stateBeginValue.
    rewrite Hc. reflexivity. }
  unfold utils.IsValidJSON, json.Unmarshal. rewrite T, N.
  destruct (json.checkValid (String c s)), (json.checkValid s);
    try discriminate V; reflexivity.
Qed.

(** X21: white space in front of a text does not change what IsValidJSON
    says of it. *)
Theorem IsValidJSON_ignores_leading_space (ws s : string)
    (Hspace : allSpaces ws = true) :
  utils.IsValidJSON (ws ++ s) = utils.IsValidJSON s.
Proof.
  induction ws as [|c ws IH]; [reflexivity |].
  simpl in Hspace. apply andb_true_iff in Hspace.
  destruct Hspace as [Hc Hws].
  simpl. rewrite IsValidJSON_leading_space by exact Hc. apply IH, Hws.
Qed.

(** ** The two directions together *)

(** X24: StringifyValue accepts the value DestringifyValue returns exactly
    when the text was read neither as an integer nor as a float: a
    destringified boolean or text can be stringified again, a destringified
    number cannot. *)
Theorem destringified_numbers_are_not_stringifiable (Data : string) :
  snd (utils.StringifyValue (fst (utils.DestringifyValue Data))) = None
  <-> (snd (strconv.Atoi Data) <> None
       /\ snd (strconv.ParseFloat Data) <> None).
Proof.
  unfold utils.DestringifyValue.
  destruct (strconv.Atoi Data) as [n [e1|]];
    destruct (strconv.ParseFloat Data) as [f [e2|]];
    destruct (strconv.ParseBool Data) as [b [e3|]]; simpl;
    split; try (intros [? ?]); try intros ?;
    try congruence; try (split; congruence); try reflexivity.
Qed.

(** ** The further statements at concrete inputs *)

Section FurtherInstances.
Import restHandler.

Local Abbreviation sample f :=
  (f Sample.APP_GROUP Sample.ENV_GROUP Sample.ResourceApplications
     Sample.ResourceEnvironment).

(** X3 and X10 on routes that lack their identifier. *)
Lemma list_route_variables_witness :
  sampleList (Sample.request "secret" [] EmptyString)
  = [WriteJsonResp (Some (syntaxError "Atoi" EmptyString)) PNil
       StatusBadRequest].
Proof.
  destruct (sample (@list_route_variables unit string) Sample.handler
              (Sample.request "secret" [] EmptyString)) as [_ [P _]].
  apply P. reflexivity.
Defined.

Lemma delete_route_variables_witness :
  sampleDelete (Sample.request "secret" [] EmptyString)
  = [WriteJsonResp (Some (syntaxError "Atoi" EmptyString))
       (PString EmptyString) StatusBadRequest].
Proof.
  destruct (sample (@delete_route_variables unit string) Sample.handler
              (Sample.request "secret" [] EmptyString)) as [_ [P _]].
  apply P. reflexivity.
Defined.

(** The call that the sample list request and the legacy update make. *)
Lemma sampleList_call :
  In (GetActiveResourceGroupList_ "secret"
        (Some (checkAppAuthBatch Sample.ResourceApplications Sample.handler))
        42 Sample.APP_GROUP)
     (serviceCalls
        (sampleList (Sample.request "secret" [("resourceId", "42")]
                       EmptyString))).
Proof. left. reflexivity. Defined.

Lemma legacyUpdate_call :
  In (UpdateResourceGroup_
        (set_CheckAuthBatch
           (Some (checkAppAuthBatch Sample.ResourceApplications
                    Sample.handler))
           legacyNormalized)
        "secret")
     (serviceCalls (sampleUpdate legacyUpdate)).
Proof. left. reflexivity. Defined.

(** X4 at the sample list request. *)
Lemma service_gets_matching_strategy_witness :
  callKind
    (GetActiveResourceGroupList_ (Rest := unit) "secret"
       (Some (checkAppAuthBatch Sample.ResourceApplications Sample.handler))
       42 Sample.APP_GROUP)
  = (Sample.APP_GROUP,
     Some (checkAppAuthBatch Sample.ResourceApplications Sample.handler))
  \/ callKind
       (GetActiveResourceGroupList_ (Rest := unit) "secret"
          (Some (checkAppAuthBatch Sample.ResourceApplications
                   Sample.handler))
          42 Sample.APP_GROUP)
     = (Sample.ENV_GROUP,
        Some (checkEnvAuthBatch Sample.ResourceEnvironment Sample.handler)).
Proof.
  apply (sample (@service_gets_matching_strategy unit string) Sample.Decode
           Sample.handler
           (Sample.request "secret" [("resourceId", "42")] EmptyString)).
  left. exact sampleList_call.
Defined.

(** X5 at the sample collaborators. *)
Lemma decode_failure_is_bad_request_witness :
  sampleUpdate garbled
  = [Log "error" "request err, UpdateResourceGroup";
     WriteJsonResp (Some (ExternalError "unexpected end of JSON input")) PNil
       StatusBadRequest].
Proof.
  assert (H1 : fst (Sample.handler.(userService) garbled) <> 0)
    by (vm_compute; discriminate).
  destruct (sample (@decode_failure_is_bad_request unit string)
              Sample.Decode Sample.handler garbled
              (ExternalError "unexpected end of JSON input")
              H1 eq_refl eq_refl) as [_ [P _]].
  exact P.
Defined.

(** X6 at the legacy update: the request delivered is the validated one
    with the strategy attached. *)
Lemma service_request_was_validated_witness :
  exists d : @ResourceGroupDto unit,
    validated (sampleUpdate legacyUpdate) = [d]
    /\ Sample.handler.(validator) d = None.
Proof.
  destruct (sample (@service_request_was_validated unit string)
              Sample.Decode Sample.handler legacyUpdate
              (set_CheckAuthBatch
                 (Some (checkAppAuthBatch Sample.ResourceApplications
                          Sample.handler))
                 legacyNormalized)
              "secret") as [_ P].
  destruct (P legacyUpdate_call) as [d [P1 [P2 _]]].
  exists d. split; assumption.
Defined.

(** X7 at the legacy update: the user is the one of the token. *)
Lemma service_request_names_the_user_witness :
  (set_CheckAuthBatch
     (Some (checkAppAuthBatch Sample.ResourceApplications Sample.handler))
     legacyNormalized).(UserId)
  = fst (Sample.handler.(userService) legacyUpdate).
Proof.
  destruct (sample (@service_request_names_the_user unit string)
              Sample.Decode Sample.handler legacyUpdate
              (UpdateResourceGroup_
                 (set_CheckAuthBatch
                    (Some (checkAppAuthBatch Sample.ResourceApplications
                             Sample.handler))
                    legacyNormalized)
                 "secret")
              (set_CheckAuthBatch
                 (Some (checkAppAuthBatch Sample.ResourceApplications
                          Sample.handler))
                 legacyNormalized)
              (or_intror (or_introl legacyUpdate_call)) eq_refl) as [P _].
  exact P.
Defined.

(** X9 at the legacy update. *)
Lemma token_is_forwarded_witness :
  callToken
    (UpdateResourceGroup_
       (set_CheckAuthBatch
          (Some (checkAppAuthBatch Sample.ResourceApplications
                   Sample.handler))
          legacyNormalized)
       "secret")
  = default EmptyString (legacyUpdate.(Header) !! "token").
Proof.
  apply (sample (@token_is_forwarded unit string) Sample.Decode
           Sample.handler legacyUpdate).
  right; right; right; left. exact legacyUpdate_call.
Defined.

(** X11 at a token in the wrong case: the match is exact. *)
Lemma resolver_strategy_iff_no_error_witness :
  sample (@getGroupTypeAndAuthFunc unit string) Sample.handler "ENV-GROUP"
  = (EmptyString, None, Some (Errorf "invalid group type ENV-GROUP")).
Proof.
  destruct (sample (@resolver_strategy_iff_no_error unit string)
              Sample.handler "ENV-GROUP") as [_ [_ P]].
  apply P. vm_compute. discriminate.
Defined.

(** X22 at the legacy update: the parent is the body's environment. *)
Lemma parent_resource_source_witness :
  legacyNormalized.(ParentResourceId) = 7.
Proof.
  pose proof (sample (@parent_resource_source unit string) Sample.Decode
                Sample.handler legacyUpdate
                (set_CheckAuthBatch
                   (Some (checkAppAuthBatch Sample.ResourceApplications
                            Sample.handler))
                   legacyNormalized)
                "secret") as P.
  cbv zeta in P. destruct P as [_ [_ P]].
  exact (P legacyUpdate_call).
Defined.

(** X13 at a token with a sign that JSON does not allow. *)
Lemma StringifyValue_number_drops_error_witness :
  fst (utils.StringifyValue (VJsonNumber "+5")) = EmptyString.
Proof.
  destruct (StringifyValue_number_drops_error "+5") as [_ [_ [_ P]]].
  apply P; [discriminate | reflexivity].
Defined.

(** X14 at two spellings of one text. *)
Lemma StringifyValue_injective_witness :
  VString ("a" ++ "b") = VString "ab".
Proof.
  apply StringifyValue_injective; reflexivity.
Defined.

(** X16 at an int. *)
Lemma primitive_and_string_exclude_each_other_witness :
  utils.IsStringType (VInt 3) = Returns false.
Proof.
  apply primitive_and_string_exclude_each_other. reflexivity.
Defined.

(** X17 at a number after a blank. *)
Lemma DestringifyValue_text_by_first_byte_witness :
  utils.DestringifyValue " 7"
  = (VString (strings.Trim " 7" dquote), None).
Proof.
  apply (DestringifyValue_text_by_first_byte " " "7"). reflexivity.
Defined.

(** X18 at the word True and at the digit 1. *)
Lemma DestringifyValue_boolean_words_witness :
  utils.DestringifyValue "True" = (VBool true, None)
  /\ ~ In ("1", true) booleanWords.
Proof.
  split.
  - apply DestringifyValue_boolean_words. simpl. tauto.
  - intros H. apply DestringifyValue_boolean_words in H.
    vm_compute in H. discriminate H.
Defined.

(** X19 at a text with a leading zero. *)
Lemma quoted_text_roundtrip_witness :
  utils.StringifyValue (fst (utils.DestringifyValue (quoted "07")))
  = (quoted "07", None).
Proof.
  destruct (quoted_text_roundtrip "07") as [_ P];
    [discriminate | discriminate | exact P].
Defined.

(** X20 at two blanks, X21 at an object after a blank and a line feed. *)
Lemma IsValidJSON_rejects_blank_witness :
  utils.IsValidJSON "  " = false.
Proof.
  apply IsValidJSON_rejects_blank. reflexivity.
Defined.

Lemma IsValidJSON_ignores_leading_space_witness :
  utils.IsValidJSON ((" " ++ newline) ++ "{}") = utils.IsValidJSON "{}".
Proof.
  apply IsValidJSON_ignores_leading_space. reflexivity.
Defined.

(** X24 at an integer text. *)
Lemma destringified_numbers_are_not_stringifiable_witness :
  snd (utils.StringifyValue (fst (utils.DestringifyValue "42"))) <> None
  /\ snd (utils.StringifyValue (fst (utils.DestringifyValue "true"))) = None.
Proof.
  split.
  - intros H. apply destringified_numbers_are_not_stringifiable in H.
    destruct H as [H _]. apply H. reflexivity.
  - apply destringified_numbers_are_not_stringifiable.
    split; vm_compute; discriminate.
Defined.

End FurtherInstances.
